(** * document_summary_llm: the multi-provider generation pipeline

    A shallow embedding of the three agents of the repository
    ([agents/relevance_checker.py], [agents/research_agent.py],
    [agents/verification_agent.py]) and of the provider clients they call
    ([providers/gemini.py], [providers/openai_fallback.py]), followed by the
    properties of the specification that concern them.

    Modelling conventions.
    - A Python [str] is a [string]; the embedding covers ASCII text (code
      points below 128): [str.strip], [str.upper], [str.capitalize] are the
      ASCII restrictions of the Python methods, and a byte of 128 or more
      is carried through unchanged.
    - A Python [dict] with [str] keys is a [gmap string Value].
    - A provider call is an effect: computations run in the monad [M], which
      threads the log of provider calls issued so far and either returns a
      value or raises a Python exception.  [print] and [logger] calls, which
      no property below observes, are left out. *)

From Stdlib Require Import ZArith Ascii String List Bool Lia QArith.
From stdpp Require Import base option list gmap strings.

Local Open Scope Z_scope.

(** ** Python string methods (ASCII) *)

Module PyStr.

Definition code (c : ascii) : nat := nat_of_ascii c.

(** [str.isspace] on one character: TAB, LF, VT, FF, CR, the four
    separators FS, GS, RS, US, and the space. *)
Definition isspace (c : ascii) : bool :=
  ((9 <=? code c)%nat && (code c <=? 13)%nat)
  || ((28 <=? code c)%nat && (code c <=? 32)%nat).

Definition islower (c : ascii) : bool :=
  (97 <=? code c)%nat && (code c <=? 122)%nat.

Definition isupper (c : ascii) : bool :=
  (65 <=? code c)%nat && (code c <=? 90)%nat.

Definition upper_char (c : ascii) : ascii :=
  if islower c then ascii_of_nat (code c - 32) else c.

Definition lower_char (c : ascii) : ascii :=
  if isupper c then ascii_of_nat (code c + 32) else c.

Fixpoint map_chars (f : ascii -> ascii) (s : string) : string :=
  match s with
  | EmptyString => EmptyString
  | String c s' => String (f c) (map_chars f s')
  end.

(** [s.upper()], [s.lower()], [s.capitalize()] *)
Definition upper : string -> string := map_chars upper_char.
Definition lower : string -> string := map_chars lower_char.

Definition capitalize (s : string) : string :=
  match s with
  | EmptyString => EmptyString
  | String c s' => String (upper_char c) (lower s')
  end.

(** Stripping the characters that satisfy [p] from the left, from the
    right, and from both ends. *)
Fixpoint lstrip_with (p : ascii -> bool) (s : string) : string :=
  match s with
  | EmptyString => EmptyString
  | String c s' => if p c then lstrip_with p s' else s
  end.

Fixpoint rstrip_with (p : ascii -> bool) (s : string) : string :=
  match s with
  | EmptyString => EmptyString
  | String c s' =>
      match rstrip_with p s' with
      | EmptyString => if p c then EmptyString else String c EmptyString
      | r => String c r
      end
  end.

Definition strip_with (p : ascii -> bool) (s : string) : string :=
  rstrip_with p (lstrip_with p s).

Fixpoint char_in (c : ascii) (chars : string) : bool :=
  match chars with
  | EmptyString => false
  | String d chars' => if Ascii.eqb c d then true else char_in c chars'
  end.

(** [s.strip()] and [s.strip(chars)] *)
Definition strip : string -> string := strip_with isspace.
Definition strip_chars (chars : string) : string -> string :=
  strip_with (fun c => char_in c chars).

(** [s.startswith(p)], [s.endswith(p)] *)
Fixpoint startswith (s p : string) : bool :=
  match p, s with
  | EmptyString, _ => true
  | String _ _, EmptyString => false
  | String a p', String b s' => if Ascii.eqb a b then startswith s' p' else false
  end.

Definition endswith (s p : string) : bool :=
  startswith (String.rev s) (String.rev p).

(** [sub in s] *)
Fixpoint contains (s sub : string) : bool :=
  startswith s sub
  || match s with
     | EmptyString => false
     | String _ s' => contains s' sub
     end.

(** [s.split(sep)] for a one-character separator: the pieces between the
    occurrences of [sep], always at least one piece. *)
Fixpoint split (sep : ascii) (s : string) : list string :=
  match s with
  | EmptyString => [EmptyString]
  | String c s' =>
      if Ascii.eqb c sep then EmptyString :: split sep s'
      else match split sep s' with
           | h :: t => String c h :: t
           | [] => [String c EmptyString]
           end
  end.

(** [s.split(sep, 1)]: cut at the first occurrence of [sep] only. *)
Fixpoint split1 (sep : ascii) (s : string) : list string :=
  match s with
  | EmptyString => [EmptyString]
  | String c s' =>
      if Ascii.eqb c sep then [EmptyString; s']
      else match split1 sep s' with
           | h :: t => String c h :: t
           | [] => [String c EmptyString]
           end
  end.

(** [s[i:j]] with Python's treatment of negative and out-of-range bounds. *)
Definition clamp_index (n i : Z) : Z :=
  if i <? 0 then Z.max (i + n) 0 else Z.min i n.

Definition slice (i j : Z) (s : string) : string :=
  let n := Z.of_nat (String.length s) in
  let lo := clamp_index n i in
  let hi := clamp_index n j in
  String.substring (Z.to_nat lo) (Z.to_nat (hi - lo)) s.

(** [sep.join(l)] *)
Definition join (sep : string) (l : list string) : string :=
  String.concat sep l.

(** Truth value of a string: non-empty. *)
Definition truthy (s : string) : bool :=
  match s with EmptyString => false | _ => true end.

(** Two predicates for stating lemmas: the first, respectively the last,
    character of [sub] exists and does not satisfy [p]. *)
Definition starts_outside (p : ascii -> bool) (sub : string) : bool :=
  match sub with
  | EmptyString => false
  | String a _ => negb (p a)
  end.

Fixpoint ends_outside (p : ascii -> bool) (sub : string) : bool :=
  match sub with
  | EmptyString => false
  | String a EmptyString => negb (p a)
  | String _ sub' => ends_outside p sub'
  end.

Definition nl : string := String "010"%char EmptyString.
Definition dquote : string := String "034"%char EmptyString.
Definition squote : string := String "039"%char EmptyString.

End PyStr.

(** ** Exceptions, provider calls and the effect monad *)

(** The exception classes the code raises or catches. *)
Inductive ExnClass := RuntimeError | ValueError | AttributeError.

(** An exception: its class, [str(e)], and the [__cause__] that
    [raise ... from e] records. *)
#[warnings="-register-all"]
Inductive PyExn := Exn (cls : ExnClass) (msg : string) (cause : option PyExn).

Definition exn_class (e : PyExn) : ExnClass := let 'Exn c _ _ := e in c.
Definition exn_str (e : PyExn) : string := let 'Exn _ m _ := e in m.
Definition exn_cause (e : PyExn) : option PyExn := let 'Exn _ _ c := e in c.

Definition is_RuntimeError (e : PyExn) : bool :=
  match exn_class e with RuntimeError => true | _ => false end.

(** [ProviderIdentity]: the two roles; Gemini is wired as Primary and OpenAI
    as Secondary by every agent's [__init__]. *)
Inductive ProviderIdentity := Primary | Secondary.

#[global] Instance ProviderIdentity_eq_dec : EqDecision ProviderIdentity.
Proof. solve_decision. Defined.

(** The keyword arguments [**constraints] of a [generate] call. *)
Record Constraints := { max_tokens : Z; temperature : Q }.

(** One provider call, as it appears in the log. *)
Record Call := {
  call_provider : ProviderIdentity;
  call_prompt : string;
  call_constraints : Constraints
}.

Definition Log := list Call.

Inductive Outcome (A : Type) :=
| Returned (a : A)
| Raised (e : PyExn).
Arguments Returned {A} a.
Arguments Raised {A} e.

(** A computation reads the log of the calls issued so far and extends it. *)
Definition M (A : Type) : Type := Log -> Outcome A * Log.

Definition ret {A} (a : A) : M A := fun log => (Returned a, log).
Definition raise {A} (e : PyExn) : M A := fun log => (Raised e, log).

Definition bind {A B} (m : M A) (k : A -> M B) : M B :=
  fun log =>
    match m log with
    | (Returned a, log') => k a log'
    | (Raised e, log') => (Raised e, log')
    end.

(** [try: body  except Exception as e: handler e] *)
Definition try_except {A} (body : M A) (handler : PyExn -> M A) : M A :=
  fun log =>
    match body log with
    | (Returned a, log') => (Returned a, log')
    | (Raised e, log') => handler e log'
    end.

(** [try: body  except RuntimeError: handler]; other classes pass through. *)
Definition try_except_RuntimeError {A} (body : M A) (handler : M A) : M A :=
  try_except body (fun e => if is_RuntimeError e then handler else raise e).

#[global] Instance M_ret : MRet M := @ret.
#[global] Instance M_bind : MBind M := fun A B k m => bind m k.

(** What the remote service does with a call: it answers with text, it
    answers without any text (for OpenAI a completion whose
    [message.content] is [None]), or the SDK raises; the answer may depend
    on the calls made before. *)
Inductive BackendResult :=
| BackendText (text : string)
| BackendNone
| BackendFailure (err : string).

Definition Backend := Log -> string -> Constraints -> BackendResult.

(** [providers/base.py]: the interface [LLMClient].  The annotation says
    [str]; what [OpenAIClient.generate] returns can also be [None]. *)
Class LLMClient (C : Type) := {
  generate : C -> string -> Constraints -> M (option string)
}.

(** [providers/gemini.py]: [GeminiClient].  The text that [generate] digs
    out of the SDK response (first candidate's first part, else
    [response.text]) is the [BackendText] of the backend; on every path
    without a text [generate] returns the empty string; any exception
    becomes [RuntimeError("Gemini Error: ...")]. *)
Record GeminiClient := { gemini_backend : Backend }.

(** [providers/openai_fallback.py]: [OpenAIClient].  [generate] returns
    [response.choices[0].message.content] as it is, [None] included; any
    exception becomes [RuntimeError("OpenAI Error: ...")]. *)
Record OpenAIClient := { openai_backend : Backend }.

(** One call: [no_text] is what [generate] returns when the service
    answered without a text. *)
Definition call_backend (who : ProviderIdentity) (prefix : string)
    (no_text : option string)
    (backend : Backend) (prompt : string) (constraints : Constraints)
    : M (option string) :=
  fun log =>
    let log' := log ++ [{| call_provider := who; call_prompt := prompt;
                           call_constraints := constraints |}] in
    match backend log prompt constraints with
    | BackendText text => (Returned (Some text), log')
    | BackendNone => (Returned no_text, log')
    | BackendFailure err => (Raised (Exn RuntimeError (prefix +:+ err) None), log')
    end.

#[global] Instance GeminiClient_LLMClient : LLMClient GeminiClient := {
  generate c := call_backend Primary "Gemini Error: " (Some "") (gemini_backend c)
}.

#[global] Instance OpenAIClient_LLMClient : LLMClient OpenAIClient := {
  generate c := call_backend Secondary "OpenAI Error: " None (openai_backend c)
}.

(** [config.settings]: the two credentials; [None] and the empty string are
    both falsy. *)
Record Settings := {
  GOOGLE_API_KEY : option string;
  OPENAI_API_KEY : option string
}.

Definition key_truthy (k : option string) : bool :=
  match k with Some s => PyStr.truthy s | None => false end.

(** The constructors of the two clients: [ValueError] without a key. *)
Definition GeminiClient_init (api_key : option string) (b : Backend)
    : Outcome GeminiClient :=
  if key_truthy api_key then Returned {| gemini_backend := b |}
  else Raised (Exn ValueError "Google API Key is required for GeminiClient" None).

Definition OpenAIClient_init (api_key : option string) (b : Backend)
    : Outcome OpenAIClient :=
  if key_truthy api_key then Returned {| openai_backend := b |}
  else Raised (Exn ValueError "OpenAI API Key is required for OpenAIClient" None).

(** [try: self.x = Client(...)  except Exception: self.x = None] *)
Definition init_or_None {C} (o : Outcome C) : option C :=
  match o with Returned c => Some c | Raised _ => None end.

(** [langchain_core.documents.Document], of which only [page_content] is read. *)
Record Document := { page_content : string }.

(** [xs[:k]] on a list. *)
Definition take_py {A} (k : Z) (xs : list A) : list A :=
  take (Z.to_nat (PyStr.clamp_index (Z.of_nat (length xs)) k)) xs.

(** ** [agents/relevance_checker.py] *)

Module RelevanceChecker.
Import PyStr.

Record t := {
  primary_client : option GeminiClient;
  secondary_client : option OpenAIClient
}.

Definition __init__ (settings : Settings) (gemini openai : Backend) : t :=
  {| primary_client := init_or_None (GeminiClient_init (GOOGLE_API_KEY settings) gemini);
     secondary_client := init_or_None (OpenAIClient_init (OPENAI_API_KEY settings) openai) |}.

Definition _get_llm_response (self : t) (prompt : string) : M (option string) :=
  let constraints := {| max_tokens := 1000; temperature := 0 |} in
  (* 1. Try Primary (Gemini) *)
  r ← match primary_client self with
      | Some client =>
          try_except (text ← generate client prompt constraints; mret (Some text))
                     (fun e => mret None)
      | None => mret None
      end;
  match r with
  | Some text => mret text
  | None =>
      (* 2. Try Secondary (OpenAI) *)
      r ← match secondary_client self with
          | Some client =>
              try_except (text ← generate client prompt constraints; mret (Some text))
                         (fun e => mret None)
          | None => mret None
          end;
      match r with
      | Some text => mret text
      | None =>
          (* 3. Fail *)
          raise (Exn RuntimeError "All models failed to generate a response." None)
      end
  end.

(** The f-string of [check]. *)
Definition prompt_of (question document_content : string) : string :=
  nl +:+
  "        You are an AI relevance checker. " +:+ nl +:+
  "        Classify how well the document content addresses the user's question." +:+ nl +:+
  nl +:+
  "        **Instructions:**" +:+ nl +:+
  "        - Respond with ONLY one label: CAN_ANSWER, PARTIAL, or NO_MATCH." +:+ nl +:+
  "        - Do not provide any explanation." +:+ nl +:+
  nl +:+
  "        **Labels:**" +:+ nl +:+
  "        1) " +:+ dquote +:+ "CAN_ANSWER" +:+ dquote +:+
    ": The passages contain enough information to fully answer." +:+ nl +:+
  "        2) " +:+ dquote +:+ "PARTIAL" +:+ dquote +:+
    ": The passages discuss the topic but lack some details." +:+ nl +:+
  "        3) " +:+ dquote +:+ "NO_MATCH" +:+ dquote +:+
    ": The passages do not mention the topic at all." +:+ nl +:+
  nl +:+
  "        **Question:** " +:+ question +:+ nl +:+
  "        **Passages:** " +:+ document_content +:+ nl +:+
  nl +:+
  "        **Respond ONLY with one of the following labels: CAN_ANSWER, PARTIAL, NO_MATCH**" +:+ nl +:+
  "        ".

(** Lines 108-128 of [check]: the response is trimmed and upper-cased,
    then matched by containment, in this order. *)
Definition classify (llm_response_text : string) : string :=
  let llm_response := upper (strip llm_response_text) in
  if contains llm_response "CAN_ANSWER" then "CAN_ANSWER"
  else if contains llm_response "PART" then "PARTIAL"
  else if contains llm_response "NO_MATCH" then "NO_MATCH"
  else "NO_MATCH".

(** The text of the top [k] chunks, blank-line separated. *)
Definition document_content_of (top_docs : list Document) (k : Z) : string :=
  join (nl +:+ nl) (page_content <$> take_py k top_docs).

Definition check (self : t) (question : string)
    (retriever : string -> list Document) (k : Z) : M string :=
  let top_docs := retriever question in
  match top_docs with
  | [] => mret "NO_MATCH"
  | _ =>
      let document_content := document_content_of top_docs k in
      let prompt := prompt_of question document_content in
      r ← try_except_RuntimeError
            (text ← _get_llm_response self prompt; mret (Some text))
            (mret None);
      match r with
      | None => mret "NO_MATCH"
      | Some (Some llm_response_text) => mret (classify llm_response_text)
      | Some None =>
          (* [llm_response_text.strip()] on [None], outside the [try] *)
          raise (Exn AttributeError "'NoneType' object has no attribute 'strip'" None)
      end
  end.

End RelevanceChecker.

(** ** [agents/research_agent.py] *)

Module ResearchAgent.
Import PyStr.

Record t := {
  primary_client : option GeminiClient;
  secondary_client : option OpenAIClient
}.

Definition __init__ (settings : Settings) (gemini openai : Backend) : t :=
  {| primary_client := init_or_None (GeminiClient_init (GOOGLE_API_KEY settings) gemini);
     secondary_client := init_or_None (OpenAIClient_init (OPENAI_API_KEY settings) openai) |}.

Definition sanitize_response (response_text : string) : string :=
  strip response_text.

Definition generate_prompt (question context : string) : string :=
  nl +:+
  "        You are an AI assistant designed to provide precise and factual answers based on the given context." +:+ nl +:+
  nl +:+
  "        **Instructions:**" +:+ nl +:+
  "        - Answer the following question using only the provided context." +:+ nl +:+
  "        - Be clear, concise, and factual." +:+ nl +:+
  "        - Return as much information as you can get from the context." +:+ nl +:+
  "        " +:+ nl +:+
  "        **Question:** " +:+ question +:+ nl +:+
  "        **Context:**" +:+ nl +:+
  "        " +:+ context +:+ nl +:+
  nl +:+
  "        **Provide your answer below:**" +:+ nl +:+
  "        ".

Definition _get_llm_response (self : t) (prompt : string) : M (option string) :=
  let constraints := {| max_tokens := 4000; temperature := 3 # 10 |} in
  (* 1. ALWAYS try Gemini first *)
  r ← match primary_client self with
      | Some client =>
          try_except (text ← generate client prompt constraints; mret (Some text))
                     (fun e => mret None)
      | None => mret None
      end;
  match r with
  | Some text => mret text
  | None =>
      (* 2. Try OpenAI second *)
      r ← match secondary_client self with
          | Some client =>
              try_except (text ← generate client prompt constraints; mret (Some text))
                         (fun e =>
                            if contains (exn_str e) "429"
                            then raise (Exn RuntimeError
                                          "Rate limit reached. Please wait 60 seconds." (Some e))
                            else mret None)
          | None => mret None
          end;
      match r with
      | Some text => mret text
      | None =>
          raise (Exn RuntimeError
                   "No AI models are currently responding. Check your API keys." None)
      end
  end.

(** The dict returned by [generate]. *)
Record DraftAnswer := { draft_answer : string; context_used : string }.

Definition generate (self : t) (question : string) (documents : list Document)
    : M DraftAnswer :=
  let context := join (nl +:+ nl) (page_content <$> documents) in
  let prompt := generate_prompt question context in
  raw_answer ← try_except (_get_llm_response self prompt)
                 (fun e => raise (Exn RuntimeError
                                    "Failed to generate answer due to a model error." (Some e)));
  let draft_answer :=
    match raw_answer with
    | Some text =>
        if truthy text then sanitize_response text
        else "I cannot answer this question."
    | None => "I cannot answer this question."
    end in
  mret {| draft_answer := draft_answer; context_used := context |}.

End ResearchAgent.

(** ** Python values stored in the verification dict *)

Inductive Value :=
| VStr (s : string)
| VList (items : list string).

Module PyVal.
Import PyStr.

Definition hex_digit (n : nat) : ascii :=
  if (n <? 10)%nat then ascii_of_nat (48 + n) else ascii_of_nat (87 + n).

Definition repr_char (quote c : ascii) : string :=
  let n := code c in
  if Ascii.eqb c quote || Ascii.eqb c "\"%char then String "\"%char (String c EmptyString)
  else if (n =? 9)%nat then "\t"
  else if (n =? 10)%nat then "\n"
  else if (n =? 13)%nat then "\r"
  else if (n <? 32)%nat || (n =? 127)%nat
       then "\x" +:+ String (hex_digit (n / 16)) (String (hex_digit (n mod 16)) EmptyString)
  else String c EmptyString.

Fixpoint repr_chars (quote : ascii) (s : string) : string :=
  match s with
  | EmptyString => EmptyString
  | String c s' => repr_char quote c +:+ repr_chars quote s'
  end.

(** [repr(s)] of a string: single quotes unless the text has a single
    quote and no double quote. *)
Definition repr (s : string) : string :=
  let quote :=
    if contains s squote && negb (contains s dquote) then "034"%char else "039"%char in
  String quote (repr_chars quote s) +:+ String quote EmptyString.

Fixpoint chars (s : string) : list string :=
  match s with
  | EmptyString => []
  | String c s' => String c EmptyString :: chars s'
  end.

(** [str(v)], as an f-string renders [{v}]. *)
Definition str (v : Value) : string :=
  match v with
  | VStr s => s
  | VList items => "[" +:+ join ", " (repr <$> items) +:+ "]"
  end.

(** [bool(v)] *)
Definition truthy (v : Value) : bool :=
  match v with
  | VStr s => PyStr.truthy s
  | VList items => match items with [] => false | _ => true end
  end.

(** The strings that iterating over [v] yields, as [str.join] sees them. *)
Definition iter (v : Value) : list string :=
  match v with
  | VStr s => chars s
  | VList items => items
  end.

End PyVal.

(** ** [agents/verification_agent.py] *)

Module VerificationAgent.
Import PyStr.

Record t := {
  primary_client : option GeminiClient;
  secondary_client : option OpenAIClient
}.

Definition __init__ (settings : Settings) (gemini openai : Backend) : t :=
  {| primary_client := init_or_None (GeminiClient_init (GOOGLE_API_KEY settings) gemini);
     secondary_client := init_or_None (OpenAIClient_init (OPENAI_API_KEY settings) openai) |}.

Definition sanitize_response (response_text : string) : string :=
  strip response_text.

Definition generate_prompt (answer context : string) : string :=
  nl +:+
  "        You are an AI assistant designed to verify the accuracy and relevance of answers based on provided context." +:+ nl +:+
  nl +:+
  "        **Instructions:**" +:+ nl +:+
  "        - Verify the following answer against the provided context." +:+ nl +:+
  "        - Check for:" +:+ nl +:+
  "        1. Direct/indirect factual support (YES/NO)" +:+ nl +:+
  "        2. Unsupported claims (list any if present)" +:+ nl +:+
  "        3. Contradictions (list any if present)" +:+ nl +:+
  "        4. Relevance to the question (YES/NO)" +:+ nl +:+
  "        - Provide additional details or explanations where relevant." +:+ nl +:+
  "        - Respond in the exact format specified below without adding any unrelated information." +:+ nl +:+
  nl +:+
  "        **Format:**" +:+ nl +:+
  "        Supported: YES/NO" +:+ nl +:+
  "        Unsupported Claims: [item1, item2, ...]" +:+ nl +:+
  "        Contradictions: [item1, item2, ...]" +:+ nl +:+
  "        Relevant: YES/NO" +:+ nl +:+
  "        Additional Details: [Any extra information or explanations]" +:+ nl +:+
  nl +:+
  "        **Answer:** " +:+ answer +:+ nl +:+
  "        **Context:**" +:+ nl +:+
  "        " +:+ context +:+ nl +:+
  nl +:+
  "        **Respond ONLY with the above format.**" +:+ nl +:+
  "        ".

(** Lines 84-90: a bracketed value is cut at the commas; the items that
    are not blank are kept, trimmed and unquoted. *)
Definition parse_items (value : string) : list string :=
  if startswith value "[" && endswith value "]" then
    let items := split "," (slice 1 (-1) value) in
    (fun item => strip_chars squote (strip_chars dquote (strip item)))
      <$> List.filter (fun item => truthy (strip item)) items
  else [].

Definition accepted_keys : gset string :=
  {[ "Supported"; "Unsupported claims"; "Contradictions"; "Relevant";
     "Additional details" ]}.

Definition list_keys : gset string :=
  {[ "Unsupported claims"; "Contradictions" ]}.

(** The body of the [for line in lines] loop; [None] is the exception
    that the enclosing [try] catches (the unpacking of a split that does
    not have two parts). *)
Definition parse_line (verification : gmap string Value) (line : string)
    : option (gmap string Value) :=
  if contains line ":" then
    match split1 ":" line with
    | [key; value] =>
        let key := capitalize (strip key) in
        let value := strip value in
        if bool_decide (key ∈ accepted_keys) then
          if bool_decide (key ∈ list_keys) then
            Some (<[key := VList (parse_items value)]> verification)
          else if bool_decide (key = "Additional details") then
            Some (<[key := VStr value]> verification)
          else
            Some (<[key := VStr (upper value)]> verification)
        else Some verification
    | _ => None
    end
  else Some verification.

Fixpoint parse_lines (verification : gmap string Value) (lines : list string)
    : option (gmap string Value) :=
  match lines with
  | [] => Some verification
  | line :: lines' =>
      match parse_line verification line with
      | Some verification' => parse_lines verification' lines'
      | None => None
      end
  end.

Definition report_keys : list string :=
  [ "Supported"; "Unsupported Claims"; "Contradictions"; "Relevant";
    "Additional Details" ].

Definition report_list_keys : gset string :=
  {[ "Unsupported Claims"; "Contradictions" ]}.

(** The body of the loop that ensures all keys are present. *)
Definition ensure_key (verification : gmap string Value) (key : string)
    : gmap string Value :=
  match verification !! key with
  | Some _ => verification
  | None =>
      if bool_decide (key ∈ report_list_keys) then <[key := VList []]> verification
      else if bool_decide (key = "Additional Details") then <[key := VStr ""]> verification
      else <[key := VStr "NO"]> verification
  end.

Definition parse_verification_response (response_text : string)
    : option (gmap string Value) :=
  let lines := split "010" response_text in
  match parse_lines ∅ lines with
  | Some verification => Some (foldl ensure_key verification report_keys)
  | None => None
  end.

Definition get (verification : gmap string Value) (key : string) (default : Value)
    : Value :=
  match verification !! key with Some v => v | None => default end.

Definition format_verification_report (verification : gmap string Value) : string :=
  let supported := get verification "Supported" (VStr "NO") in
  let unsupported_claims := get verification "Unsupported Claims" (VList []) in
  let contradictions := get verification "Contradictions" (VList []) in
  let relevant := get verification "Relevant" (VStr "NO") in
  let additional_details := get verification "Additional Details" (VStr "") in
  let report := "**Supported:** " +:+ PyVal.str supported +:+ nl in
  let report :=
    if PyVal.truthy unsupported_claims
    then report +:+ "**Unsupported Claims:** "
           +:+ join ", " (PyVal.iter unsupported_claims) +:+ nl
    else report +:+ "**Unsupported Claims:** None" +:+ nl in
  let report :=
    if PyVal.truthy contradictions
    then report +:+ "**Contradictions:** "
           +:+ join ", " (PyVal.iter contradictions) +:+ nl
    else report +:+ "**Contradictions:** None" +:+ nl in
  let report := report +:+ "**Relevant:** " +:+ PyVal.str relevant +:+ nl in
  let report :=
    if PyVal.truthy additional_details
    then report +:+ "**Additional Details:** " +:+ PyVal.str additional_details +:+ nl
    else report +:+ "**Additional Details:** None" +:+ nl in
  report.

Definition _get_llm_response (self : t) (prompt : string) : M (option string) :=
  let constraints := {| max_tokens := 3000; temperature := 0 |} in
  (* 1. ALWAYS try Gemini first *)
  r ← match primary_client self with
      | Some client =>
          try_except (text ← generate client prompt constraints; mret (Some text))
                     (fun e => mret None)
      | None => mret None
      end;
  match r with
  | Some text => mret text
  | None =>
      (* 2. Try OpenAI second *)
      r ← match secondary_client self with
          | Some client =>
              try_except (text ← generate client prompt constraints; mret (Some text))
                         (fun e =>
                            if contains (exn_str e) "429"
                            then raise (Exn RuntimeError
                                          "Rate limit reached. Please wait 60 seconds." (Some e))
                            else mret None)
          | None => mret None
          end;
      match r with
      | Some text => mret text
      | None =>
          raise (Exn RuntimeError
                   "No AI models are currently responding. Check your API keys." None)
      end
  end.

(** The two literal reports that [check] substitutes. *)
Definition default_report (additional_details : string) : gmap string Value :=
  <["Additional Details" := VStr additional_details]>
    (<["Relevant" := VStr "NO"]>
       (<["Contradictions" := VList []]>
          (<["Unsupported Claims" := VList []]>
             (<["Supported" := VStr "NO"]> ∅)))).

(** Steps 2 and 3 of [check]: from the raw response to the report dict. *)
Definition report_of_response (llm_response : option string) : gmap string Value :=
  let sanitized_response :=
    match llm_response with
    | Some text => if truthy text then sanitize_response text else ""
    | None => ""
    end in
  if negb (truthy sanitized_response) then
    default_report "Empty response from the model."
  else
    match parse_verification_response sanitized_response with
    | Some verification_report => verification_report
    | None => default_report "Failed to parse the model's response."
    end.

(** The dict returned by [check]. *)
Record CheckResult := { verification_report : string; context_used : string }.

Definition check (self : t) (answer : string) (documents : list Document)
    : M CheckResult :=
  let context := join (nl +:+ nl) (page_content <$> documents) in
  let prompt := generate_prompt answer context in
  llm_response ← try_except (_get_llm_response self prompt)
                   (fun e => raise (Exn RuntimeError
                                      "Failed to verify answer due to a model error." (Some e)));
  let verification_report := report_of_response llm_response in
  let verification_report_formatted := format_verification_report verification_report in
  mret {| verification_report := verification_report_formatted;
          context_used := context |}.

End VerificationAgent.

(** ** The three stages and their fallback coordination *)

Inductive Stage := Relevance | Drafting | Verification.

(** The constraints each stage passes to [generate]. *)
Definition stage_constraints (st : Stage) : Constraints :=
  match st with
  | Relevance => {| max_tokens := 1000; temperature := 0 |}
  | Drafting => {| max_tokens := 4000; temperature := 3 # 10 |}
  | Verification => {| max_tokens := 3000; temperature := 0 |}
  end.

(** [resolve st p s] is the [_get_llm_response] of the agent of stage [st]
    whose clients are [p] and [s]. *)
Definition resolve (st : Stage) (p : option GeminiClient) (s : option OpenAIClient)
    : string -> M (option string) :=
  match st with
  | Relevance =>
      RelevanceChecker._get_llm_response
        {| RelevanceChecker.primary_client := p; RelevanceChecker.secondary_client := s |}
  | Drafting =>
      ResearchAgent._get_llm_response
        {| ResearchAgent.primary_client := p; ResearchAgent.secondary_client := s |}
  | Verification =>
      VerificationAgent._get_llm_response
        {| VerificationAgent.primary_client := p; VerificationAgent.secondary_client := s |}
  end.

(** The entry a call of [who] leaves in the log. *)
Definition call_of (st : Stage) (who : ProviderIdentity) (prompt : string) : Call :=
  {| call_provider := who; call_prompt := prompt;
     call_constraints := stage_constraints st |}.

(** What the Primary answers when the stage is entered with log [log]
    ([None]: the client is absent), and the log after its turn. *)
Definition primary_answer (st : Stage) (p : option GeminiClient)
    (prompt : string) (log : Log) : option BackendResult :=
  (fun client => gemini_backend client log prompt (stage_constraints st)) <$> p.

Definition log_after_primary (st : Stage) (p : option GeminiClient)
    (prompt : string) (log : Log) : Log :=
  match p with
  | Some _ => log ++ [call_of st Primary prompt]
  | None => log
  end.

(** What the Secondary answers if it is reached. *)
Definition secondary_answer (st : Stage) (p : option GeminiClient)
    (s : option OpenAIClient) (prompt : string) (log : Log) : option BackendResult :=
  (fun client =>
     openai_backend client (log_after_primary st p prompt log) prompt
       (stage_constraints st)) <$> s.

(** A provider that is absent or whose call fails. *)
Definition no_output (answer : option BackendResult) : Prop :=
  match answer with
  | Some (BackendText _) | Some BackendNone => False
  | Some (BackendFailure _) | None => True
  end.

(** The generic error each stage raises when nothing produced output. *)
Definition exhaustion_error (st : Stage) : PyExn :=
  match st with
  | Relevance => Exn RuntimeError "All models failed to generate a response." None
  | Drafting | Verification =>
      Exn RuntimeError "No AI models are currently responding. Check your API keys." None
  end.

(** The exception of [llm_response_text.strip()] when the text is [None]. *)
Definition none_has_no_strip : PyExn :=
  Exn AttributeError "'NoneType' object has no attribute 'strip'" None.

(** The wait-and-retry error of the drafting and verification stages. *)
Definition rate_limit_error (cause : PyExn) : PyExn :=
  Exn RuntimeError "Rate limit reached. Please wait 60 seconds." (Some cause).

(** The exception [OpenAIClient.generate] raises for an SDK failure [err]. *)
Definition openai_failure (err : string) : PyExn :=
  Exn RuntimeError ("OpenAI Error: " +:+ err) None.

(** ** Fixtures used by the examples *)

Definition always_text (text : string) : Backend := fun _ _ _ => BackendText text.
Definition always_fail (err : string) : Backend := fun _ _ _ => BackendFailure err.
Definition always_none : Backend := fun _ _ _ => BackendNone.

Definition one_doc : list Document := [ {| page_content := "X is 42." |} ].

(** The response line [Unsupported Claims: [a, "b", c]]. *)
Definition unsupported_abc : string :=
  "Unsupported Claims: [a, " +:+ PyStr.dquote +:+ "b" +:+ PyStr.dquote +:+ ", c]".

(** ** Vocabulary of the properties *)

(** The three relevance labels. *)
Definition labels : list string := ["CAN_ANSWER"; "PARTIAL"; "NO_MATCH"].

(** A report dict in which the five fields read by the formatter are
    present, each with a value of its kind. *)
Definition all_fields_populated (report : gmap string Value) : Prop :=
  (exists v, report !! "Supported" = Some (VStr v))
  /\ (exists items, report !! "Unsupported Claims" = Some (VList items))
  /\ (exists items, report !! "Contradictions" = Some (VList items))
  /\ (exists v, report !! "Relevant" = Some (VStr v))
  /\ (exists v, report !! "Additional Details" = Some (VStr v)).

(** What the parsing loop maintains: the keys it may write hold values of
    their kind, upper-cased for the two YES/NO fields, and it never writes
    the two keys spelled with a capital second word. *)
Definition loop_invariant (verification : gmap string Value) : Prop :=
  (forall x, verification !! "Supported" = Some x -> exists v, x = VStr (PyStr.upper v))
  /\ (forall x, verification !! "Relevant" = Some x -> exists v, x = VStr (PyStr.upper v))
  /\ (forall x, verification !! "Contradictions" = Some x -> exists items, x = VList items)
  /\ verification !! "Unsupported Claims" = None
  /\ verification !! "Additional Details" = None.

(** The value the backfilling loop gives to an absent key. *)
Definition default_of (key : string) : Value :=
  if bool_decide (key ∈ VerificationAgent.report_list_keys) then VList []
  else if bool_decide (key = "Additional Details") then VStr ""
  else VStr "NO".

(** The key under which the parsing loop stores a line, if it stores it:
    the line has a colon and the trimmed, capitalized text before the first
    colon is one of the accepted keys (lines 77-81). *)
Definition field_key (line : string) : option string :=
  if PyStr.contains line ":" then
    match PyStr.split1 ":" line with
    | [key; _] =>
        let key := PyStr.capitalize (PyStr.strip key) in
        if bool_decide (key ∈ VerificationAgent.accepted_keys) then Some key else None
    | _ => None
    end
  else None.

Definition is_field_line (line : string) : bool :=
  match field_key line with Some _ => true | None => false end.

(** A text without the character [c]. *)
Definition free_of (c : ascii) (s : string) : Prop :=
  PyStr.char_in c s = false.

(** ** The response handling of [GeminiClient.generate] *)

(** What [generate] reads of the SDK response: [candidates] ([None] when
    the attribute is missing), of the first candidate the parts of its
    content ([None] when the content is missing or empty) and its
    [finish_reason], of a part its text ([None] when reading it raises
    AttributeError), and the accessor [response.text] ([None] when it
    raises ValueError or AttributeError). *)
Record GeminiPart := { part_text : option string }.

Record GeminiCandidate := {
  candidate_parts : option (list GeminiPart);
  finish_reason : Z
}.

Record GeminiResponse := {
  candidates : option (list GeminiCandidate);
  response_text : option string
}.

(** Step 3 of [generate]: the standard accessor, or the empty string. *)
Definition gemini_text_fallback (response : GeminiResponse) : string :=
  match response_text response with
  | Some text => if PyStr.truthy text then text else ""
  | None => ""
  end.

(** The part of [generate] after the SDK call (lines 38-60). *)
Definition gemini_extract (response : GeminiResponse) : string :=
  match candidates response with
  | None | Some [] => ""
  | Some (candidate :: _) =>
      match candidate_parts candidate with
      | Some (part :: _) =>
          match part_text part with
          | Some text_content => text_content
          | None => gemini_text_fallback response
          end
      | Some [] | None => gemini_text_fallback response
      end
  end.

(** The SDK call: a response, or an exception with its text. *)
Definition GeminiSDK := Log -> string -> Constraints -> GeminiResponse + string.

(** The backend of a client whose SDK behaves as [sdk]. *)
Definition gemini_backend_of (sdk : GeminiSDK) : Backend :=
  fun log prompt constraints =>
    match sdk log prompt constraints with
    | inl response => BackendText (gemini_extract response)
    | inr err => BackendFailure err
    end.

(** A response that a safety or quota block leaves without candidates. *)
Definition has_no_candidates (response : GeminiResponse) : Prop :=
  candidates response = None \/ candidates response = Some [].

(** ** [engine_room/builder.py] and the handlers of [modal_app.py] *)

Module DocChat.
Import PyStr.

(** The outcome of a call that may raise: of an exception only [str(e)] is
    ever observed here. *)
Inductive Res (A : Type) :=
| Ok (a : A)
| Err (msg : string).
Arguments Ok {A} a.
Arguments Err {A} msg.

(** A file handed over by the upload widget, of which [name] is read. *)
Record UploadedFile := { name : string }.

(** [GoogleGenerativeAIEmbeddings(model=..., google_api_key=...)] *)
Record Embeddings := { model : string; google_api_key : string }.

(** The retrieval part of [config.settings]. *)
Record RetrievalSettings := {
  CHROMA_DB_PATH : string;
  VECTOR_SEARCH_K : Z;
  HYBRID_RETRIEVER_WEIGHTS : list Q
}.

(** The dict that [AgentWorkflow.full_pipeline] returns, as read here. *)
Record PipelineResult := { draft_answer : string; verification_report : string }.

(** The collaborators outside the repository's sources: the vector store
    and keyword index of the retrieval libraries, the file system, the
    hash function and the document processor. *)
Record Externals := {
  VectorStore : Type;
  BM25Index : Type;
  Chroma_from_documents : list Document -> Embeddings -> string -> Res VectorStore;
  BM25Retriever_from_documents : list Document -> Res BM25Index;
  read_file : string -> Res string;
  sha256_hexdigest : string -> string;
  path_exists : string -> bool;
  processor_process : list UploadedFile -> Res (list Document)
}.

Section WithExternals.
Variable ext : Externals.

(** The retriever objects that the builder assembles. *)
#[warnings="-register-all"]
Inductive Retriever :=
| BM25Retriever (index : BM25Index ext)
| VectorStoreRetriever (store : VectorStore ext) (k : Z)
| EnsembleRetriever (retrievers : list Retriever) (weights : list Q).

(** The session dict of the interface. *)
Record SessionState := {
  file_hashes : gset string;
  retriever : option Retriever
}.

(** The calls to the collaborators, in the order they are made. *)
Inductive Event :=
| FileRead (path : string)
| Processed (files : list UploadedFile)
| ChromaBuilt (docs : list Document)
| BM25Built (docs : list Document)
| PipelineRun (question : string) (used : option Retriever).

Record World := { session : SessionState; events : list Event }.

Definition App (A : Type) : Type := World -> Res A * World.

Definition pure {A} (a : A) : App A := fun w => (Ok a, w).
Definition throw {A} (msg : string) : App A := fun w => (Err msg, w).
Definition and_then {A B} (m : App A) (k : A -> App B) : App B :=
  fun w =>
    match m w with
    | (Ok a, w') => k a w'
    | (Err msg, w') => (Err msg, w')
    end.
Definition catch {A} (body : App A) (handler : string -> App A) : App A :=
  fun w =>
    match body w with
    | (Ok a, w') => (Ok a, w')
    | (Err msg, w') => handler msg w'
    end.
Definition call {A} (e : Event) (r : Res A) : App A :=
  fun w => (r, {| session := session w; events := events w ++ [e] |}).
Definition get_session : App SessionState := fun w => (Ok (session w), w).
Definition update_session (s : SessionState) : App unit :=
  fun w => (Ok tt, {| session := s; events := events w |}).

#[local] Instance App_ret : MRet App := @pure.
#[local] Instance App_bind : MBind App := fun A B k m => and_then m k.

(** [RetrieverBuilder] *)
Record RetrieverBuilder := { embeddings : Embeddings }.

Definition build_hybrid_retriever (settings : RetrievalSettings)
    (self : RetrieverBuilder) (docs : list Document) : App (option Retriever) :=
  catch
    (match docs with
     | [] => mret None
     | _ =>
         (* 1. Create Chroma vector store *)
         vector_store ← call (ChromaBuilt docs)
           (Chroma_from_documents ext docs (embeddings self) (CHROMA_DB_PATH settings));
         (* 2. Create BM25 retriever *)
         bm25 ← call (BM25Built docs) (BM25Retriever_from_documents ext docs);
         (* 3. Create vector-based retriever *)
         let vector_retriever :=
           VectorStoreRetriever vector_store (VECTOR_SEARCH_K settings) in
         (* 4. Combine them *)
         let hybrid_retriever :=
           EnsembleRetriever [BM25Retriever bm25; vector_retriever]
             (HYBRID_RETRIEVER_WEIGHTS settings) in
         mret (Some hybrid_retriever)
     end)
    (fun msg => throw msg).

(** [EXAMPLES] of [run_gradio] *)
Record ExampleData := { question : string; file_paths : list string }.

Definition EXAMPLES : gmap string ExampleData :=
  <["DeepSeek-R1 Technical Report" :=
      {| question := "Summarize DeepSeek-R1 model's performance evaluation on all coding tasks against OpenAI o1-mini model";
         file_paths := ["examples/DeepSeek Technical Report.pdf"] |}]>
    (<["Google 2024 Environmental Report" :=
         {| question := "Retrieve the data center PUE efficiency values in Singapore 2nd facility in 2019 and 2022. Also retrieve regional average CFE in Asia pacific in 2023";
            file_paths := ["examples/google-2024-environmental-report.pdf"] |}]> ∅).

(** The loop of [load_example] over the paths of an example. *)
Fixpoint load_paths (paths : list string) : list string :=
  match paths with
  | [] => []
  | path :: rest =>
      let full_path := if startswith path "/" then path else "/root/" +:+ path in
      if path_exists ext full_path then full_path :: load_paths rest
      else load_paths rest
  end.

Definition load_example (example_key : option string) : list string * string :=
  match example_key with
  | Some key =>
      if truthy key then
        match EXAMPLES !! key with
        | Some ex_data => (load_paths (file_paths ex_data), question ex_data)
        | None => ([], "")
        end
      else ([], "")
  | None => ([], "")
  end.

(** The loop of [_get_file_hashes]. *)
Fixpoint hash_files (hashes : gset string) (uploaded_files : list UploadedFile)
    : App (gset string) :=
  match uploaded_files with
  | [] => mret hashes
  | file :: rest =>
      content ← call (FileRead (name file)) (read_file ext (name file));
      hash_files (hashes ∪ {[ sha256_hexdigest ext content ]}) rest
  end.

Definition _get_file_hashes (uploaded_files : list UploadedFile) : App (gset string) :=
  hash_files ∅ uploaded_files.

(** The cross mark of the messages, U+274C in UTF-8. *)
Definition cross_mark : string :=
  String "226" (String "157" (String "140" EmptyString)).

(** [AgentWorkflow.full_pipeline], which is not among the sources. *)
Definition Workflow := string -> option Retriever -> Res PipelineResult.

(** The [try] block of [process_question]. *)
Definition process_question_body (settings : RetrievalSettings)
    (retriever_builder : RetrieverBuilder) (workflow : Workflow)
    (question_text : string) (uploaded_files : list UploadedFile)
    : App PipelineResult :=
  if negb (truthy (strip question_text)) then
    throw (cross_mark +:+ " Question cannot be empty")
  else
    match uploaded_files with
    | [] => throw (cross_mark +:+ " No documents uploaded")
    | _ =>
        current_hashes ← _get_file_hashes uploaded_files;
        state ← get_session;
        _ ← (if bool_decide (retriever state = None)
                || negb (bool_decide (current_hashes = file_hashes state))
             then
               chunks ← call (Processed uploaded_files)
                 (processor_process ext uploaded_files);
               match chunks with
               | [] => throw "No readable text found."
               | _ =>
                   built ← build_hybrid_retriever settings retriever_builder chunks;
                   update_session {| file_hashes := current_hashes; retriever := built |}
               end
             else mret tt);
        state ← get_session;
        call (PipelineRun question_text (retriever state))
          (workflow question_text (retriever state))
    end.

(** [process_question]: the session dict is mutated in place, so the one
    returned, also by the [except] branch, is the session as the [try]
    block left it. *)
Definition process_question (settings : RetrievalSettings)
    (retriever_builder : RetrieverBuilder) (workflow : Workflow)
    (question_text : string) (uploaded_files : list UploadedFile)
    (state : SessionState) (log : list Event)
    : (string * string * SessionState) * list Event :=
  match process_question_body settings retriever_builder workflow question_text
          uploaded_files {| session := state; events := log |} with
  | (Ok result, w) =>
      ((draft_answer result, verification_report result, session w), events w)
  | (Err msg, w) =>
      ((cross_mark +:+ " Error: " +:+ msg, "", session w), events w)
  end.

End WithExternals.

Arguments BM25Retriever {ext} index.
Arguments VectorStoreRetriever {ext} store k.
Arguments EnsembleRetriever {ext} retrievers weights.
Arguments FileRead {ext} path.
Arguments Processed {ext} files.
Arguments ChromaBuilt {ext} docs.
Arguments BM25Built {ext} docs.
Arguments PipelineRun {ext} question used.
Arguments file_hashes {ext} s.
Arguments retriever {ext} s.
Arguments session {ext} w.
Arguments events {ext} w.

End DocChat.

(** The digest [_get_file_hashes] computes for a readable file. *)
Definition digest_of (ext : DocChat.Externals) (file : DocChat.UploadedFile) : string :=
  match DocChat.read_file ext (DocChat.name file) with
  | DocChat.Ok content => DocChat.sha256_hexdigest ext content
  | DocChat.Err _ => ""
  end.

Definition readable (ext : DocChat.Externals) (file : DocChat.UploadedFile) : Prop :=
  exists content, DocChat.read_file ext (DocChat.name file) = DocChat.Ok content.

(** Collaborators for the examples: every store and index is the list of
    its documents, a file's content is its name, except that "missing.pdf"
    cannot be read, and the digest of a content is the content. *)
Definition demo_externals : DocChat.Externals :=
  {| DocChat.VectorStore := list Document;
     DocChat.BM25Index := list Document;
     DocChat.Chroma_from_documents := fun docs _ _ => DocChat.Ok docs;
     DocChat.BM25Retriever_from_documents := fun docs => DocChat.Ok docs;
     DocChat.read_file := fun path =>
       if String.eqb path "missing.pdf"
       then DocChat.Err "[Errno 2] No such file or directory: 'missing.pdf'"
       else DocChat.Ok path;
     DocChat.sha256_hexdigest := fun content => content;
     DocChat.path_exists := fun path => String.eqb path "/root/examples/DeepSeek Technical Report.pdf";
     DocChat.processor_process := fun files =>
       DocChat.Ok ((fun f => {| page_content := DocChat.name f |}) <$> files) |}.

Definition demo_settings : DocChat.RetrievalSettings :=
  {| DocChat.CHROMA_DB_PATH := "./chroma_db";
     DocChat.VECTOR_SEARCH_K := 10;
     DocChat.HYBRID_RETRIEVER_WEIGHTS := [4 # 10; 6 # 10] |}.

Definition demo_builder : DocChat.RetrieverBuilder :=
  {| DocChat.embeddings :=
       {| DocChat.model := "models/text-embedding-004"; DocChat.google_api_key := "k" |} |}.

Definition demo_workflow : DocChat.Workflow demo_externals :=
  fun question _ =>
    DocChat.Ok {| DocChat.draft_answer := "X is 42.";
                  DocChat.verification_report := "**Supported:** YES" |}.

Definition demo_session : DocChat.SessionState demo_externals :=
  {| DocChat.file_hashes := ∅; DocChat.retriever := None |}.

(** The set [_get_file_hashes] returns for readable files, and the reads
    it makes. *)
Definition current_hashes (ext : DocChat.Externals)
    (uploaded_files : list DocChat.UploadedFile) : gset string :=
  list_to_set (digest_of ext <$> uploaded_files).

Definition reads (ext : DocChat.Externals)
    (uploaded_files : list DocChat.UploadedFile) : list (DocChat.Event ext) :=
  (fun f => DocChat.FileRead (DocChat.name f)) <$> uploaded_files.

(** What the interface shows for a failure with text [msg]. *)
Definition error_reply (msg : string) : string :=
  DocChat.cross_mark +:+ " Error: " +:+ msg.

(** What [process_question] returns for the outcome of the pipeline. *)
Definition reply_of {ext : DocChat.Externals}
    (r : DocChat.Res DocChat.PipelineResult) (session : DocChat.SessionState ext)
    : string * string * DocChat.SessionState ext :=
  match r with
  | DocChat.Ok result =>
      (DocChat.draft_answer result, DocChat.verification_report result, session)
  | DocChat.Err msg => (error_reply msg, "", session)
  end.

(** The session is stale: no retriever yet, or other files than last time. *)
Definition stale (ext : DocChat.Externals) (state : DocChat.SessionState ext)
    (uploaded_files : list DocChat.UploadedFile) : Prop :=
  DocChat.retriever state = None
  \/ current_hashes ext uploaded_files <> DocChat.file_hashes state.

(** The retriever that the demo collaborators build for the file a.pdf. *)
Definition demo_retriever : DocChat.Retriever demo_externals :=
  DocChat.EnsembleRetriever
    [DocChat.BM25Retriever (ext := demo_externals) [ {| page_content := "a.pdf" |} ];
     DocChat.VectorStoreRetriever (ext := demo_externals) [ {| page_content := "a.pdf" |} ] 10]
    [4 # 10; 6 # 10].

(** Collaborators whose processor finds no text. *)
Definition blank_externals : DocChat.Externals :=
  {| DocChat.VectorStore := list Document;
     DocChat.BM25Index := list Document;
     DocChat.Chroma_from_documents := fun docs _ _ => DocChat.Ok docs;
     DocChat.BM25Retriever_from_documents := fun docs => DocChat.Ok docs;
     DocChat.read_file := fun path => DocChat.Ok path;
     DocChat.sha256_hexdigest := fun content => content;
     DocChat.path_exists := fun _ => false;
     DocChat.processor_process := fun _ => DocChat.Ok [] |}.

(** * Properties *)

(** ** Unit tests of the string methods *)

Example strip_ex : PyStr.strip "  a b 	" = "a b".
Proof. reflexivity. Qed.

Example cap_ex : PyStr.capitalize "unsupported Claims" = "Unsupported claims".
Proof. reflexivity. Qed.

Example split_ex : PyStr.split "," "a, b,,c" = ["a"; " b"; ""; "c"].
Proof. reflexivity. Qed.

Example split1_ex : PyStr.split1 ":" "k: v: w" = ["k"; " v: w"].
Proof. reflexivity. Qed.

Example slice_ex : PyStr.slice 1 (-1) "[a, b]" = "a, b".
Proof. reflexivity. Qed.

Example ends_ex : PyStr.endswith "[a]" "]" = true /\ PyStr.contains "xxPARTyy" "PART" = true.
Proof. split; reflexivity. Qed.

Example repr_ex :
  PyVal.str (VList ["a'b"; "c"; PyStr.nl; "x'" +:+ PyStr.dquote +:+ "y"]) =
  "[" +:+ PyStr.dquote +:+ "a'b" +:+ PyStr.dquote +:+ ", 'c', '\n', 'x\'"
      +:+ PyStr.dquote +:+ "y']".
Proof. reflexivity. Qed.

(** ** Lemmas on the string methods *)

Section StringLemmas.
Import PyStr.

Lemma isspace_upper_char c : isspace (upper_char c) = isspace c.
Proof. destruct c as [[] [] [] [] [] [] [] []]; reflexivity. Qed.

Lemma map_chars_lstrip (f : ascii -> ascii) (p : ascii -> bool) s :
  (forall c, p (f c) = p c) ->
  map_chars f (lstrip_with p s) = lstrip_with p (map_chars f s).
Proof.
  intros Hp. induction s as [|c s IH]; simpl; [reflexivity|].
  rewrite Hp. destruct (p c); [exact IH | reflexivity].
Qed.

Lemma map_chars_rstrip (f : ascii -> ascii) (p : ascii -> bool) s :
  (forall c, p (f c) = p c) ->
  map_chars f (rstrip_with p s) = rstrip_with p (map_chars f s).
Proof.
  intros Hp. induction s as [|c s IH]; simpl; [reflexivity|].
  rewrite <- IH, Hp.
  destruct (rstrip_with p s); simpl; [destruct (p c)|]; reflexivity.
Qed.

Lemma upper_strip s : upper (strip s) = strip (upper s).
Proof.
  unfold upper, strip, strip_with.
  rewrite map_chars_rstrip, map_chars_lstrip; auto using isspace_upper_char.
Qed.

Lemma startswith_nonempty s sub :
  startswith s sub = true -> sub <> EmptyString -> s <> EmptyString.
Proof. destruct sub, s; simpl; congruence. Qed.

Lemma contains_nonempty s sub :
  contains s sub = true -> sub <> EmptyString -> s <> EmptyString.
Proof. destruct sub, s; simpl; congruence. Qed.

Lemma contains_cons c s sub :
  contains s sub = true -> contains (String c s) sub = true.
Proof. intros H. simpl. rewrite H. apply orb_true_r. Qed.

Lemma startswith_contains s sub :
  startswith s sub = true -> contains s sub = true.
Proof. intros H. destruct s; simpl in *; rewrite H; reflexivity. Qed.

Lemma contains_lstrip p s sub :
  starts_outside p sub = true ->
  contains s sub = true -> contains (lstrip_with p s) sub = true.
Proof.
  destruct sub as [|a sub]; [discriminate|]. simpl. intros Ha.
  induction s as [|c s IH]; [trivial|].
  intros H. cbn [lstrip_with]. destruct (p c) eqn:Hc; [|exact H].
  apply IH. cbn [contains startswith] in H.
  destruct (Ascii.eqb a c) eqn:Hac.
  - apply Ascii.eqb_eq in Hac. subst c. rewrite Hc in Ha. discriminate.
  - exact H.
Qed.

Lemma startswith_rstrip p sub : forall s,
  ends_outside p sub = true ->
  startswith s sub = true -> startswith (rstrip_with p s) sub = true.
Proof.
  induction sub as [|a sub IH]; [discriminate|].
  intros [|c s] He H; [discriminate|].
  cbn [startswith] in H. destruct (Ascii.eqb a c) eqn:Hac; [|discriminate].
  destruct sub as [|b sub].
  - cbn [ends_outside] in He. apply Ascii.eqb_eq in Hac. subst c.
    cbn [rstrip_with]. destruct (rstrip_with p s).
    + destruct (p a); [discriminate|]. cbn. rewrite Ascii.eqb_refl. reflexivity.
    + cbn. rewrite Ascii.eqb_refl. reflexivity.
  - assert (He' : ends_outside p (String b sub) = true) by exact He.
    specialize (IH s He' H).
    cbn [rstrip_with]. destruct (rstrip_with p s) eqn:Hr; [discriminate|].
    cbn [startswith]. rewrite Hac. exact IH.
Qed.

Lemma contains_rstrip p s sub :
  ends_outside p sub = true ->
  contains s sub = true -> contains (rstrip_with p s) sub = true.
Proof.
  intros He. assert (Hne : sub <> EmptyString) by (destruct sub; [discriminate|congruence]).
  induction s as [|c s IH]; intros H.
  - destruct sub; [congruence|discriminate].
  - assert (Hs : startswith (String c s) sub = true \/ contains s sub = true).
    { cbn [contains] in H. apply orb_true_iff in H. exact H. }
    destruct Hs as [Hs|Hs].
    + apply (startswith_rstrip p) in Hs; [|exact He].
      apply startswith_contains. exact Hs.
    + specialize (IH Hs).
      pose proof (contains_nonempty _ _ IH Hne) as Hr.
      cbn [rstrip_with]. destruct (rstrip_with p s) eqn:E; [congruence|].
      apply contains_cons. exact IH.
Qed.

(** A piece of text that neither starts nor ends with white space
    survives [strip]. *)
Lemma contains_strip s sub :
  starts_outside isspace sub = true -> ends_outside isspace sub = true ->
  contains s sub = true -> contains (strip s) sub = true.
Proof.
  intros Hs He H. unfold strip, strip_with.
  apply contains_rstrip; [exact He|]. apply contains_lstrip; assumption.
Qed.

Lemma rstrip_idem p s : rstrip_with p (rstrip_with p s) = rstrip_with p s.
Proof.
  induction s as [|c s IH]; [reflexivity|].
  cbn [rstrip_with]. destruct (rstrip_with p s) as [|d r] eqn:E.
  - destruct (p c) eqn:Hc; [reflexivity|]. cbn. rewrite Hc. reflexivity.
  - cbn [rstrip_with] in *. rewrite IH. reflexivity.
Qed.

Lemma lstrip_fixed p s :
  starts_outside p s = true \/ s = EmptyString -> lstrip_with p s = s.
Proof.
  intros [H| ->]; [|reflexivity]. destruct s as [|c s]; [discriminate|].
  simpl in *. destruct (p c); [discriminate|reflexivity].
Qed.

Lemma lstrip_starts p s :
  starts_outside p (lstrip_with p s) = true \/ lstrip_with p s = EmptyString.
Proof.
  induction s as [|c s IH]; [right; reflexivity|].
  simpl. destruct (p c) eqn:Hc; [exact IH|]. left. simpl. rewrite Hc. reflexivity.
Qed.

Lemma rstrip_starts p s :
  starts_outside p s = true \/ s = EmptyString ->
  starts_outside p (rstrip_with p s) = true \/ rstrip_with p s = EmptyString.
Proof.
  intros [H| ->]; [|right; reflexivity]. destruct s as [|c s]; [discriminate|].
  left. simpl in *. destruct (rstrip_with p s); [|exact H].
  destruct (p c) eqn:Hc; [discriminate|]. simpl. rewrite Hc. reflexivity.
Qed.

Lemma strip_idem s : strip (strip s) = strip s.
Proof.
  unfold strip, strip_with.
  rewrite (lstrip_fixed isspace (rstrip_with isspace (lstrip_with isspace s))).
  - apply rstrip_idem.
  - apply rstrip_starts, lstrip_starts.
Qed.

End StringLemmas.

(** ** The fallback coordination *)

Ltac unfold_fallback :=
  unfold resolve, RelevanceChecker._get_llm_response,
    ResearchAgent._get_llm_response, VerificationAgent._get_llm_response,
    primary_answer, secondary_answer, log_after_primary, call_of,
    stage_constraints, mbind, M_bind, bind, try_except, mret, M_ret, ret,
    raise, generate, GeminiClient_LLMClient, OpenAIClient_LLMClient,
    call_backend, fmap, option_fmap, option_map in *;
  cbn [RelevanceChecker.primary_client RelevanceChecker.secondary_client
       ResearchAgent.primary_client ResearchAgent.secondary_client
       VerificationAgent.primary_client VerificationAgent.secondary_client] in *.

Ltac sublist_tac :=
  cbn; repeat first [apply sublist_nil | apply sublist_skip | apply sublist_cons].

Section Fallback.
Variables (st : Stage) (p : option GeminiClient) (s : option OpenAIClient).
Variables (prompt : string) (log : Log).

(** A Primary that answers decides the call. *)
Lemma resolve_primary_text text :
  primary_answer st p prompt log = Some (BackendText text) ->
  resolve st p s prompt log = (Returned (Some text), log ++ [call_of st Primary prompt]).
Proof.
  intros H. destruct st, p as [pc|]; unfold_fallback; try discriminate;
    injection H as H; rewrite H; reflexivity.
Qed.

(** A Primary without text answers with the empty string. *)
Lemma resolve_primary_none :
  primary_answer st p prompt log = Some BackendNone ->
  resolve st p s prompt log = (Returned (Some ""), log ++ [call_of st Primary prompt]).
Proof.
  intros H. destruct st, p as [pc|]; unfold_fallback; try discriminate;
    injection H as H; rewrite H; reflexivity.
Qed.

(** Otherwise a Secondary that answers decides it. *)
Lemma resolve_secondary_text text :
  no_output (primary_answer st p prompt log) ->
  secondary_answer st p s prompt log = Some (BackendText text) ->
  resolve st p s prompt log =
    (Returned (Some text),
     log_after_primary st p prompt log ++ [call_of st Secondary prompt]).
Proof.
  intros Hp Hs. destruct st, p as [pc|], s as [sc|]; unfold_fallback;
    try discriminate; injection Hs as Hs; cbn [no_output] in Hp;
    try (destruct (gemini_backend pc log prompt _) eqn:Hpc; [destruct Hp|destruct Hp|]);
    rewrite Hs; reflexivity.
Qed.

(** A Secondary whose content is [None] decides it too: with [None]. *)
Lemma resolve_secondary_none :
  no_output (primary_answer st p prompt log) ->
  secondary_answer st p s prompt log = Some BackendNone ->
  resolve st p s prompt log =
    (Returned None, log_after_primary st p prompt log ++ [call_of st Secondary prompt]).
Proof.
  intros Hp Hs. destruct st, p as [pc|], s as [sc|]; unfold_fallback;
    try discriminate; injection Hs as Hs; cbn [no_output] in Hp;
    try (destruct (gemini_backend pc log prompt _) eqn:Hpc; [destruct Hp|destruct Hp|]);
    rewrite Hs; reflexivity.
Qed.

(** The calls of one request: a sublist of Primary, Secondary. *)
Lemma resolve_calls :
  exists calls,
    snd (resolve st p s prompt log) = log ++ calls
    /\ sublist (call_provider <$> calls) [Primary; Secondary].
Proof.
  destruct st, p as [pc|], s as [sc|]; unfold_fallback;
    try destruct (gemini_backend pc log prompt _);
    try destruct (openai_backend sc _ prompt _);
    try destruct (PyStr.contains _ "429");
    cbn [snd].
  all: try (rewrite <- app_assoc; eexists; split; [reflexivity | sublist_tac]).
  all: try (eexists; split; [reflexivity | sublist_tac]).
  all: try (exists []; split; [symmetry; apply app_nil_r | sublist_tac]).
Qed.

(** When nothing produced output the call raises; the error is the
    stage's generic one unless the drafting or verification stage saw a
    429 in the Secondary's failure. *)
Lemma resolve_no_output :
  no_output (primary_answer st p prompt log) ->
  no_output (secondary_answer st p s prompt log) ->
  exists e log',
    resolve st p s prompt log = (Raised e, log')
    /\ (e = exhaustion_error st
        \/ (st <> Relevance
            /\ exists err, secondary_answer st p s prompt log = Some (BackendFailure err)
                 /\ PyStr.contains (exn_str (openai_failure err)) "429" = true
                 /\ e = rate_limit_error (openai_failure err))).
Proof.
  intros Hp Hs. destruct st, p as [pc|], s as [sc|]; unfold_fallback;
    cbn [no_output] in *;
    try (destruct (gemini_backend pc log prompt _) as [| |perr] eqn:Hpc;
         [destruct Hp|destruct Hp|]);
    try (destruct (openai_backend sc _ prompt _) as [| |err] eqn:Hsc;
         [destruct Hs|destruct Hs|]);
    try (destruct (PyStr.contains (exn_str _) "429") eqn:H429);
    do 2 eexists; (split; [reflexivity|]);
    first [ left; reflexivity
          | right; split; [discriminate|]; exists err; repeat split; exact H429 ].
Qed.

End Fallback.

Lemma resolve_raises_RuntimeError st p s prompt log e log' :
  resolve st p s prompt log = (Raised e, log') -> exn_class e = RuntimeError.
Proof.
  destruct st, p as [pc|], s as [sc|]; unfold_fallback;
    try destruct (gemini_backend pc log prompt _);
    try destruct (openai_backend sc _ prompt _);
    try destruct (PyStr.contains _ "429");
    intros H; inversion H; reflexivity.
Qed.

Lemma RelevanceChecker_resolve self :
  RelevanceChecker._get_llm_response self =
  resolve Relevance (RelevanceChecker.primary_client self)
    (RelevanceChecker.secondary_client self).
Proof. destruct self; reflexivity. Qed.

Lemma ResearchAgent_resolve self :
  ResearchAgent._get_llm_response self =
  resolve Drafting (ResearchAgent.primary_client self)
    (ResearchAgent.secondary_client self).
Proof. destruct self; reflexivity. Qed.

Lemma VerificationAgent_resolve self :
  VerificationAgent._get_llm_response self =
  resolve Verification (VerificationAgent.primary_client self)
    (VerificationAgent.secondary_client self).
Proof. destruct self; reflexivity. Qed.

(** C8: in every stage the coordination calls the providers in the order
    Primary, Secondary, each at most once (the calls added to the log are a
    sublist of Primary, Secondary); a Primary that answers ends the request
    with its text and no call to the Secondary; when the Primary is absent
    or fails, a Secondary that answers ends the request with its text; in
    particular a Primary that always fails and a Secondary that always
    answers yield the Secondary's text after exactly one call to each. *)
Theorem fallback_first_success_wins
    (st : Stage) (p : option GeminiClient) (s : option OpenAIClient)
    (prompt : string) (log : Log) :
  (exists calls,
     snd (resolve st p s prompt log) = log ++ calls
     /\ sublist (call_provider <$> calls) [Primary; Secondary])
  /\ (forall text,
        primary_answer st p prompt log = Some (BackendText text) ->
        resolve st p s prompt log =
          (Returned (Some text), log ++ [call_of st Primary prompt]))
  /\ (forall text,
        no_output (primary_answer st p prompt log) ->
        secondary_answer st p s prompt log = Some (BackendText text) ->
        resolve st p s prompt log =
          (Returned (Some text),
           log_after_primary st p prompt log ++ [call_of st Secondary prompt]))
  /\ (forall pc sc text,
        p = Some pc -> s = Some sc ->
        (forall l q c, exists err, gemini_backend pc l q c = BackendFailure err) ->
        (forall l q c, openai_backend sc l q c = BackendText text) ->
        resolve st p s prompt log =
          (Returned (Some text),
           log ++ [call_of st Primary prompt; call_of st Secondary prompt])).
Proof.
  split; [apply resolve_calls|].
  split; [intros text; apply resolve_primary_text|].
  split; [intros text; apply resolve_secondary_text|].
  intros pc sc text -> -> Hp Hs.
  rewrite (resolve_secondary_text st (Some pc) (Some sc) prompt log text).
  - cbn [log_after_primary]. rewrite <- app_assoc. reflexivity.
  - cbn. destruct (Hp log prompt (stage_constraints st)) as [err ->]. exact I.
  - cbn. rewrite Hs. reflexivity.
Qed.

Lemma fallback_first_success_wins_witness :
  resolve Relevance (Some {| gemini_backend := always_fail "503" |})
    (Some {| openai_backend := always_text "PARTIAL" |}) "q" [] =
  (Returned (Some "PARTIAL"),
   [call_of Relevance Primary "q"; call_of Relevance Secondary "q"]).
Proof.
  destruct (fallback_first_success_wins Relevance
              (Some {| gemini_backend := always_fail "503" |})
              (Some {| openai_backend := always_text "PARTIAL" |}) "q" [])
    as (_ & _ & _ & H).
  apply (H _ _ "PARTIAL" eq_refl eq_refl).
  - intros l q c. exists "503". reflexivity.
  - intros l q c. reflexivity.
Defined.

(** C9, as the code has it: when no provider is initialized or every
    initialized provider fails, the coordination of every stage raises an
    error and returns no string.  With both clients absent the error is the
    stage's exhaustion error.  In general it is the exhaustion error, except
    that the drafting and verification stages raise the rate-limit error
    when the text of the Secondary's failure contains 429. *)
Theorem fallback_no_output_raises
    (st : Stage) (p : option GeminiClient) (s : option OpenAIClient)
    (prompt : string) (log : Log) :
  no_output (primary_answer st p prompt log) ->
  no_output (secondary_answer st p s prompt log) ->
  resolve st None None prompt log = (Raised (exhaustion_error st), log)
  /\ exists e log',
       resolve st p s prompt log = (Raised e, log')
       /\ (e = exhaustion_error st
           \/ (st <> Relevance
               /\ exists err,
                    secondary_answer st p s prompt log = Some (BackendFailure err)
                    /\ PyStr.contains (exn_str (openai_failure err)) "429" = true
                    /\ e = rate_limit_error (openai_failure err))).
Proof.
  intros Hp Hs. split; [destruct st; reflexivity|].
  apply resolve_no_output; assumption.
Qed.

Lemma fallback_no_output_raises_witness :
  exists e log',
    resolve Relevance (Some {| gemini_backend := always_fail "503" |}) None "q" []
      = (Raised e, log')
    /\ (e = exhaustion_error Relevance
        \/ (Relevance <> Relevance
            /\ exists err,
                 secondary_answer Relevance
                   (Some {| gemini_backend := always_fail "503" |}) None "q" []
                   = Some (BackendFailure err)
                 /\ PyStr.contains (exn_str (openai_failure err)) "429" = true
                 /\ e = rate_limit_error (openai_failure err))).
Proof.
  apply (fallback_no_output_raises Relevance
           (Some {| gemini_backend := always_fail "503" |}) None "q" []).
  - exact I.
  - exact I.
Defined.

(** C9 as stated fails: in the verification stage, with the Primary absent
    and a Secondary whose failure mentions 429, every initialized provider
    fails and yet the error raised is not the exhaustion error. *)
Lemma exhaustion_error_counterexample :
  let p : option GeminiClient := None in
  let s := Some {| openai_backend := always_fail "429 Too Many Requests" |} in
  no_output (primary_answer Verification p "q" [])
  /\ no_output (secondary_answer Verification p s "q" [])
  /\ fst (resolve Verification p s "q" []) =
       Raised (Exn RuntimeError "Rate limit reached. Please wait 60 seconds."
                 (Some (Exn RuntimeError "OpenAI Error: 429 Too Many Requests" None)))
  /\ fst (resolve Verification p s "q" []) <> Raised (exhaustion_error Verification).
Proof.
  repeat split; try exact I. discriminate.
Qed.

(** C4, as the code has it: in the drafting and verification stages, when
    the Secondary is called (the Primary being absent or having failed) and
    the text of its failure contains 429, the coordination raises
    RuntimeError "Rate limit reached. Please wait 60 seconds." with that
    failure as its cause, an error different from the exhaustion error. *)
Theorem rate_limit_propagated
    (st : Stage) (p : option GeminiClient) (s : option OpenAIClient)
    (prompt : string) (log : Log) (err : string) :
  st <> Relevance ->
  no_output (primary_answer st p prompt log) ->
  secondary_answer st p s prompt log = Some (BackendFailure err) ->
  PyStr.contains (exn_str (openai_failure err)) "429" = true ->
  resolve st p s prompt log =
    (Raised (rate_limit_error (openai_failure err)),
     log_after_primary st p prompt log ++ [call_of st Secondary prompt])
  /\ exn_str (rate_limit_error (openai_failure err)) =
       "Rate limit reached. Please wait 60 seconds."
  /\ rate_limit_error (openai_failure err) <> exhaustion_error st.
Proof.
  intros Hst Hp Hs H429. split; [|split; [reflexivity | destruct st; discriminate]].
  unfold openai_failure, exn_str in H429.
  destruct st; [congruence| |];
    destruct p as [pc|], s as [sc|]; unfold_fallback; try discriminate;
    injection Hs as Hs; cbn [no_output] in Hp;
    try (destruct (gemini_backend pc log prompt _) as [| |perr] eqn:Hpc;
         [destruct Hp|destruct Hp|]);
    rewrite Hs; cbn [exn_str]; rewrite H429; reflexivity.
Qed.

Lemma rate_limit_propagated_witness :
  resolve Drafting (Some {| gemini_backend := always_fail "503" |})
    (Some {| openai_backend := always_fail "429 Too Many Requests" |}) "q" [] =
  (Raised (rate_limit_error (openai_failure "429 Too Many Requests")),
   [call_of Drafting Primary "q"; call_of Drafting Secondary "q"]).
Proof.
  apply (rate_limit_propagated Drafting
           (Some {| gemini_backend := always_fail "503" |})
           (Some {| openai_backend := always_fail "429 Too Many Requests" |})
           "q" [] "429 Too Many Requests").
  - discriminate.
  - exact I.
  - reflexivity.
  - reflexivity.
Defined.

(** ** The relevance classifier *)

Ltac unfold_M :=
  unfold try_except_RuntimeError, try_except, mbind, M_bind, bind, mret, M_ret,
    ret, raise in *.

Section Relevance.
Import PyStr.
Variables (self : RelevanceChecker.t) (question : string).
Variables (retriever : string -> list Document) (k : Z) (log : Log).

Local Abbreviation prompt :=
  (RelevanceChecker.prompt_of question
     (RelevanceChecker.document_content_of (retriever question) k)).

Lemma classify_label raw : RelevanceChecker.classify raw ∈ labels.
Proof.
  unfold RelevanceChecker.classify, labels.
  repeat match goal with |- context [if ?b then _ else _] => destruct b end;
    set_solver.
Qed.

(** With passages and an answering provider, [check] classifies the text. *)
Lemma check_returned raw log' :
  retriever question <> [] ->
  RelevanceChecker._get_llm_response self prompt log = (Returned (Some raw), log') ->
  RelevanceChecker.check self question retriever k log =
    (Returned (RelevanceChecker.classify raw), log').
Proof.
  intros Hne H. unfold RelevanceChecker.check.
  destruct (retriever question) as [|d ds] eqn:E; [congruence|].
  unfold_M. rewrite H. reflexivity.
Qed.

(** With passages and no answering provider, [check] says NO_MATCH. *)
Lemma check_raised e log' :
  retriever question <> [] ->
  RelevanceChecker._get_llm_response self prompt log = (Raised e, log') ->
  RelevanceChecker.check self question retriever k log = (Returned "NO_MATCH", log').
Proof.
  intros Hne H. unfold RelevanceChecker.check.
  destruct (retriever question) as [|d ds] eqn:E; [congruence|].
  pose proof H as Hc. rewrite RelevanceChecker_resolve in Hc.
  apply resolve_raises_RuntimeError in Hc.
  unfold_M. rewrite H. unfold is_RuntimeError. rewrite Hc. reflexivity.
Qed.

(** With passages and a provider that answers [None], [check] raises. *)
Lemma check_none log' :
  retriever question <> [] ->
  RelevanceChecker._get_llm_response self prompt log = (Returned None, log') ->
  RelevanceChecker.check self question retriever k log = (Raised none_has_no_strip, log').
Proof.
  intros Hne H. unfold RelevanceChecker.check.
  destruct (retriever question) as [|d ds] eqn:E; [congruence|].
  unfold_M. rewrite H. reflexivity.
Qed.

(** [check] returns one of the three labels, except when the coordination
    returns [None]: then it raises AttributeError. *)
Lemma check_outcomes :
  (exists label log',
     RelevanceChecker.check self question retriever k log = (Returned label, log')
     /\ label ∈ labels)
  \/ (exists log',
        retriever question <> []
        /\ RelevanceChecker._get_llm_response self prompt log = (Returned None, log')
        /\ RelevanceChecker.check self question retriever k log
           = (Raised none_has_no_strip, log')).
Proof.
  assert (retriever question = [] \/ retriever question <> []) as [E|Hne]
    by (destruct (retriever question); [left|right]; congruence).
  - left. exists "NO_MATCH", log. unfold RelevanceChecker.check. rewrite E.
    split; [reflexivity | unfold labels; set_solver].
  - destruct (RelevanceChecker._get_llm_response self prompt log)
      as [[[raw|]|e] log'] eqn:H.
    + left. exists (RelevanceChecker.classify raw), log'.
      split; [apply check_returned; assumption | apply classify_label].
    + right. exists log'. split; [exact Hne|]. split; [reflexivity|].
      apply check_none; assumption.
    + left. exists "NO_MATCH", log'.
      split; [eapply check_raised; eassumption | unfold labels; set_solver].
Qed.

End Relevance.

(** C7: when the retriever returns no passage, [check] returns NO_MATCH and
    the log of provider calls is unchanged: no provider was called. *)
Theorem empty_retrieval_no_call
    (self : RelevanceChecker.t) (question : string)
    (retriever : string -> list Document) (k : Z) (log : Log) :
  retriever question = [] ->
  RelevanceChecker.check self question retriever k log = (Returned "NO_MATCH", log).
Proof. intros H. unfold RelevanceChecker.check. rewrite H. reflexivity. Qed.

Lemma empty_retrieval_no_call_witness :
  RelevanceChecker.check
    {| RelevanceChecker.primary_client := Some {| gemini_backend := always_text "CAN_ANSWER" |};
       RelevanceChecker.secondary_client := None |}
    "What is X?" (fun _ => []) 3 [] = (Returned "NO_MATCH", []).
Proof. apply empty_retrieval_no_call. reflexivity. Defined.

(** C6: a raw output whose upper-cased form contains CAN_ANSWER is
    classified CAN_ANSWER, whatever else it contains (PART included), and
    that is what [check] returns for it; without CAN_ANSWER, a text whose
    trimmed upper-cased form contains PART is classified PARTIAL, even if
    it also contains NO_MATCH. *)
Theorem can_answer_first (raw : string) :
  PyStr.contains (PyStr.upper raw) "CAN_ANSWER" = true ->
  RelevanceChecker.classify raw = "CAN_ANSWER"
  /\ (forall self question retriever k log log',
        retriever question <> [] ->
        RelevanceChecker._get_llm_response self
          (RelevanceChecker.prompt_of question
             (RelevanceChecker.document_content_of (retriever question) k)) log
          = (Returned (Some raw), log') ->
        RelevanceChecker.check self question retriever k log
          = (Returned "CAN_ANSWER", log'))
  /\ (forall other,
        PyStr.contains (PyStr.upper (PyStr.strip other)) "CAN_ANSWER" = false ->
        PyStr.contains (PyStr.upper (PyStr.strip other)) "PART" = true ->
        RelevanceChecker.classify other = "PARTIAL").
Proof.
  intros H.
  assert (Hc : RelevanceChecker.classify raw = "CAN_ANSWER").
  { unfold RelevanceChecker.classify. rewrite upper_strip.
    rewrite contains_strip; [reflexivity | reflexivity | reflexivity | exact H]. }
  split; [exact Hc|]. split.
  - intros self question retriever k log log' Hne Hr.
    rewrite <- Hc. apply check_returned; assumption.
  - intros other H1 H2. unfold RelevanceChecker.classify. rewrite H1, H2. reflexivity.
Qed.

Lemma can_answer_first_witness :
  RelevanceChecker.classify "I think CAN_ANSWER, or at least PARTIAL (no_match is wrong)."
  = "CAN_ANSWER".
Proof.
  apply (can_answer_first "I think CAN_ANSWER, or at least PARTIAL (no_match is wrong).").
  reflexivity.
Defined.

(** C3, on the code: [check] returns one of the three labels in every case
    but one.  When the coordination returns [None] (no Gemini answer, and
    an OpenAI completion whose [message.content] is [None]), the call
    [llm_response_text.strip()], which is outside the [try], raises
    AttributeError, which [check] does not catch: it raises instead of
    returning NO_MATCH. *)
Theorem relevance_check_none_output
    (self : RelevanceChecker.t) (question : string)
    (retriever : string -> list Document) (k : Z) (log : Log) :
  (retriever question <> [] ->
     no_output
       (primary_answer Relevance (RelevanceChecker.primary_client self)
          (RelevanceChecker.prompt_of question
             (RelevanceChecker.document_content_of (retriever question) k)) log) ->
     secondary_answer Relevance (RelevanceChecker.primary_client self)
       (RelevanceChecker.secondary_client self)
       (RelevanceChecker.prompt_of question
          (RelevanceChecker.document_content_of (retriever question) k)) log
       = Some BackendNone ->
     exists log',
       RelevanceChecker.check self question retriever k log
         = (Raised none_has_no_strip, log')
       /\ exn_class none_has_no_strip = AttributeError)
  /\ ((exists label log',
         RelevanceChecker.check self question retriever k log = (Returned label, log')
         /\ label ∈ labels)
      \/ (exists log',
            retriever question <> []
            /\ RelevanceChecker._get_llm_response self
                 (RelevanceChecker.prompt_of question
                    (RelevanceChecker.document_content_of (retriever question) k)) log
               = (Returned None, log')
            /\ RelevanceChecker.check self question retriever k log
               = (Raised none_has_no_strip, log'))).
Proof.
  split; [|apply check_outcomes].
  intros Hne Hp Hs. eexists. split; [|reflexivity].
  apply check_none; [exact Hne|].
  rewrite RelevanceChecker_resolve. apply resolve_secondary_none; assumption.
Qed.

Lemma relevance_check_none_output_witness :
  exists log',
    RelevanceChecker.check
      {| RelevanceChecker.primary_client := None;
         RelevanceChecker.secondary_client := Some {| openai_backend := always_none |} |}
      "What is X?" (fun _ => one_doc) 3 [] = (Raised none_has_no_strip, log')
    /\ exn_class none_has_no_strip = AttributeError.
Proof.
  destruct (relevance_check_none_output
              {| RelevanceChecker.primary_client := None;
                 RelevanceChecker.secondary_client :=
                   Some {| openai_backend := always_none |} |}
              "What is X?" (fun _ => one_doc) 3 []) as [H _].
  apply H.
  - discriminate.
  - exact I.
  - reflexivity.
Defined.

(** C4 as stated fails: the relevance stage has no rate-limit handling.
    With the Primary absent and a Secondary whose failure mentions 429, its
    coordination raises the generic error, and [check] turns it into
    NO_MATCH; in the drafting stage a 429 of the Primary, the only provider
    and so the final failure, also ends in the generic error. *)
Lemma rate_limit_counterexample :
  let s := Some {| openai_backend := always_fail "429 Too Many Requests" |} in
  let p := Some {| gemini_backend := always_fail "429 Too Many Requests" |} in
  PyStr.contains (exn_str (openai_failure "429 Too Many Requests")) "429" = true
  /\ fst (resolve Relevance None s "q" []) =
       Raised (Exn RuntimeError "All models failed to generate a response." None)
  /\ fst (RelevanceChecker.check
            {| RelevanceChecker.primary_client := None;
               RelevanceChecker.secondary_client := s |}
            "What is X?" (fun _ => one_doc) 3 []) = Returned "NO_MATCH"
  /\ fst (resolve Drafting p None "q" []) =
       Raised (Exn RuntimeError
                 "No AI models are currently responding. Check your API keys." None).
Proof. repeat split. Qed.

(** ** The drafting agent *)

(** A whitespace-only text passes the truthiness test of [generate] and
    is then trimmed: the draft is the empty string, not the sentinel. *)
Lemma generate_blank_text
    (self : ResearchAgent.t) (question : string) (documents : list Document)
    (log log' : Log) (text : string) :
  ResearchAgent._get_llm_response self
    (ResearchAgent.generate_prompt question
       (PyStr.join (PyStr.nl +:+ PyStr.nl) (page_content <$> documents))) log
    = (Returned (Some text), log') ->
  text <> "" -> PyStr.strip text = "" ->
  ResearchAgent.generate self question documents log =
    (Returned {| ResearchAgent.draft_answer := "";
                 ResearchAgent.context_used :=
                   PyStr.join (PyStr.nl +:+ PyStr.nl) (page_content <$> documents) |},
     log').
Proof.
  intros H Hne Hs. unfold ResearchAgent.generate. unfold_M. rewrite H.
  destruct text; [congruence|]. cbn [PyStr.truthy].
  unfold ResearchAgent.sanitize_response. rewrite Hs. reflexivity.
Qed.

(** C5, as the code has it: when the coordination returns, [generate]
    returns a draft that is whitespace-trimmed; for an empty result ([None]
    or the empty text) the draft is the sentinel "I cannot answer this
    question." rather than an empty string, and for a text with a
    non-blank character it is the trimmed text, which is not empty.  When
    the coordination raises, [generate] raises RuntimeError "Failed to
    generate answer due to a model error." with that error as its cause. *)
Theorem generate_draft
    (self : ResearchAgent.t) (question : string) (documents : list Document)
    (log : Log) :
  let context := PyStr.join (PyStr.nl +:+ PyStr.nl) (page_content <$> documents) in
  let prompt := ResearchAgent.generate_prompt question context in
  (forall raw log',
     ResearchAgent._get_llm_response self prompt log = (Returned raw, log') ->
     exists draft,
       ResearchAgent.generate self question documents log =
         (Returned {| ResearchAgent.draft_answer := draft;
                      ResearchAgent.context_used := context |}, log')
       /\ PyStr.strip draft = draft
       /\ (raw = None \/ raw = Some "" ->
           draft = "I cannot answer this question." /\ draft <> "")
       /\ (forall text,
             raw = Some text -> PyStr.strip text <> "" ->
             draft = PyStr.strip text /\ draft <> ""))
  /\ (forall e log',
        ResearchAgent._get_llm_response self prompt log = (Raised e, log') ->
        ResearchAgent.generate self question documents log =
          (Raised (Exn RuntimeError "Failed to generate answer due to a model error."
                     (Some e)), log')).
Proof.
  intros context prompt. split.
  - intros raw log' H.
    exists (match raw with
            | Some text => if PyStr.truthy text then PyStr.strip text
                           else "I cannot answer this question."
            | None => "I cannot answer this question."
            end).
    split; [|split; [|split]].
    + unfold ResearchAgent.generate. fold context. fold prompt.
      unfold_M. rewrite H. reflexivity.
    + destruct raw as [[|c text]|]; cbn [PyStr.truthy];
        [reflexivity | apply strip_idem | reflexivity].
    + intros [-> | ->]; (split; [reflexivity | discriminate]).
    + intros text -> Hne. destruct text as [|c text]; [contradiction Hne; reflexivity|].
      cbn [PyStr.truthy]. split; [reflexivity | exact Hne].
  - intros e log' H. unfold ResearchAgent.generate. fold context. fold prompt.
    unfold_M. rewrite H. reflexivity.
Qed.

Lemma generate_draft_witness :
  exists draft,
    ResearchAgent.generate
      {| ResearchAgent.primary_client := Some {| gemini_backend := always_text "  X is 42. " |};
         ResearchAgent.secondary_client := None |}
      "What is X?" one_doc [] =
      (Returned {| ResearchAgent.draft_answer := draft;
                   ResearchAgent.context_used := "X is 42." |},
       [call_of Drafting Primary (ResearchAgent.generate_prompt "What is X?" "X is 42.")])
    /\ PyStr.strip draft = draft
    /\ draft = PyStr.strip "  X is 42. "
    /\ draft <> "".
Proof.
  destruct (generate_draft
              {| ResearchAgent.primary_client :=
                   Some {| gemini_backend := always_text "  X is 42. " |};
                 ResearchAgent.secondary_client := None |}
              "What is X?" one_doc []) as [H _].
  destruct (H (Some "  X is 42. ") _ eq_refl) as (draft & Hg & Hs & _ & Ht).
  exists draft. split; [exact Hg|]. split; [exact Hs|].
  apply (Ht "  X is 42. "); [reflexivity | vm_compute; discriminate].
Defined.

(** C5 as stated fails: with no provider initialized the generation fails,
    and [generate] raises instead of returning the sentinel draft. *)
Lemma generate_draft_counterexample :
  let self := {| ResearchAgent.primary_client := None;
                 ResearchAgent.secondary_client := None |} in
  fst (ResearchAgent.generate self "What is X?" one_doc []) =
    Raised (Exn RuntimeError "Failed to generate answer due to a model error."
              (Some (exhaustion_error Drafting)))
  /\ ~ exists result,
         fst (ResearchAgent.generate self "What is X?" one_doc []) = Returned result.
Proof.
  split; [reflexivity|]. intros [result H]. discriminate H.
Qed.

(** ** The verification agent *)

Ltac eval_bool_decide :=
  repeat match goal with
         | |- context [bool_decide ?P] =>
             let b := eval vm_compute in (bool_decide P) in
             change (bool_decide P) with b
         end; cbv iota.

Section Parser.
Import PyStr.

(** A line with a colon splits in two at the first colon: the unpacking
    in the loop cannot fail. *)
Lemma split1_two line :
  contains line ":" = true -> exists key value, split1 ":" line = [key; value].
Proof.
  induction line as [|c line IH]; [discriminate|].
  cbn [contains startswith split1].
  destruct (Ascii.eqb c ":") eqn:E.
  - intros _. eauto.
  - rewrite Ascii.eqb_sym, E. cbn [orb]. intros H.
    destruct (IH H) as (key & value & ->). eauto.
Qed.

Lemma parse_line_invariant verification line :
  loop_invariant verification ->
  exists verification',
    VerificationAgent.parse_line verification line = Some verification'
    /\ loop_invariant verification'.
Proof.
  intros Hv. unfold VerificationAgent.parse_line.
  destruct (contains line ":") eqn:Hc; [|eauto].
  destruct (split1_two line Hc) as (key & value & ->).
  case_bool_decide as Hk; [|eauto].
  unfold VerificationAgent.accepted_keys in Hk. set_unfold in Hk.
  destruct Hv as (H1 & H2 & H3 & H4 & H5).
  destruct Hk as [[[[Hk|Hk]|Hk]|Hk]|Hk]; rewrite Hk; eval_bool_decide;
    eexists; (split; [reflexivity|]); unfold loop_invariant;
    repeat split; intros; simplify_map_eq; eauto.
Qed.

Lemma parse_lines_invariant lines : forall verification,
  loop_invariant verification ->
  exists verification',
    VerificationAgent.parse_lines verification lines = Some verification'
    /\ loop_invariant verification'.
Proof.
  induction lines as [|line lines IH]; intros verification Hv; [eauto|].
  cbn [VerificationAgent.parse_lines].
  destruct (parse_line_invariant verification line Hv) as (v1 & -> & Hv1).
  apply IH. exact Hv1.
Qed.

Lemma loop_invariant_empty : loop_invariant ∅.
Proof. unfold loop_invariant. repeat split; intros; simplify_map_eq. Qed.

Lemma ensure_key_same verification key :
  VerificationAgent.ensure_key verification key !! key =
  Some (VerificationAgent.get verification key (default_of key)).
Proof.
  unfold VerificationAgent.ensure_key, VerificationAgent.get, default_of.
  destruct (verification !! key) eqn:E; [exact E|].
  repeat case_bool_decide; apply lookup_insert_eq.
Qed.

Lemma ensure_key_other verification key key' :
  key <> key' ->
  VerificationAgent.ensure_key verification key !! key' = verification !! key'.
Proof.
  intros Hne. unfold VerificationAgent.ensure_key.
  destruct (verification !! key); [reflexivity|].
  repeat case_bool_decide; apply lookup_insert_ne; exact Hne.
Qed.

(** After the backfilling loop each of the five keys holds what the parsing
    loop left there, or its default. *)
Lemma backfill_lookup verification key :
  key ∈ VerificationAgent.report_keys ->
  foldl VerificationAgent.ensure_key verification VerificationAgent.report_keys !! key
  = Some (VerificationAgent.get verification key (default_of key)).
Proof.
  unfold VerificationAgent.report_keys. cbn [foldl]. intros Hk. set_unfold in Hk.
  destruct Hk as [Hk|[Hk|[Hk|[Hk|[Hk|[]]]]]]; subst key;
    repeat first
      [ rewrite ensure_key_same
      | rewrite ensure_key_other by discriminate ];
    unfold VerificationAgent.get;
    repeat first
      [ rewrite ensure_key_same
      | rewrite ensure_key_other by discriminate ];
    reflexivity.
Qed.

(** The parser is total, its result has the five fields, and the two fields
    spelled with a capital second word always hold their defaults. *)
Lemma parse_verification_response_total response_text :
  exists report,
    VerificationAgent.parse_verification_response response_text = Some report
    /\ all_fields_populated report
    /\ report !! "Unsupported Claims" = Some (VList [])
    /\ report !! "Additional Details" = Some (VStr "")
    /\ (exists v, report !! "Supported" = Some (VStr (upper v)))
    /\ (exists v, report !! "Relevant" = Some (VStr (upper v))).
Proof.
  unfold VerificationAgent.parse_verification_response.
  destruct (parse_lines_invariant (split "010" response_text) ∅ loop_invariant_empty)
    as (v & -> & H1 & H2 & H3 & H4 & H5).
  eexists. split; [reflexivity|].
  unfold all_fields_populated.
  rewrite !backfill_lookup by (unfold VerificationAgent.report_keys; set_unfold; tauto).
  unfold VerificationAgent.get. rewrite H4, H5.
  assert (Hs : exists s, match v !! "Supported" with
                         | Some x => x
                         | None => default_of "Supported"
                         end = VStr (upper s)).
  { destruct (v !! "Supported") as [x|] eqn:E; [|exists "NO"; reflexivity].
    destruct (H1 x eq_refl) as [s ->]. eauto. }
  assert (Hr : exists s, match v !! "Relevant" with
                         | Some x => x
                         | None => default_of "Relevant"
                         end = VStr (upper s)).
  { destruct (v !! "Relevant") as [x|] eqn:E; [|exists "NO"; reflexivity].
    destruct (H2 x eq_refl) as [s ->]. eauto. }
  assert (Hc : exists items, match v !! "Contradictions" with
                             | Some x => x
                             | None => default_of "Contradictions"
                             end = VList items).
  { destruct (v !! "Contradictions") as [x|] eqn:E; [|eexists; reflexivity].
    destruct (H3 x eq_refl) as [s ->]. eauto. }
  destruct Hs as [s ->], Hr as [r ->], Hc as [c ->].
  repeat split; eauto.
Qed.

Lemma default_report_populated details :
  all_fields_populated (VerificationAgent.default_report details).
Proof.
  unfold all_fields_populated, VerificationAgent.default_report.
  repeat split; eexists; simplify_map_eq; reflexivity.
Qed.

Lemma report_of_response_populated llm_response :
  all_fields_populated (VerificationAgent.report_of_response llm_response).
Proof.
  unfold VerificationAgent.report_of_response.
  destruct (negb _); [apply default_report_populated|].
  match goal with
  | |- context [VerificationAgent.parse_verification_response ?x] =>
      destruct (parse_verification_response_total x) as (report & -> & H & _)
  end.
  exact H.
Qed.

End Parser.

(** C1, as the code has it: when the coordination returns a response
    (empty or not), [check] returns the rendering of a report in which all
    five fields are populated with their values or defaults; when the
    coordination raises (every provider absent or failing), [check] raises
    RuntimeError "Failed to verify answer due to a model error." with that
    error as its cause and produces no report. *)
Theorem check_report
    (self : VerificationAgent.t) (answer : string) (documents : list Document)
    (log : Log) :
  let context := PyStr.join (PyStr.nl +:+ PyStr.nl) (page_content <$> documents) in
  let prompt := VerificationAgent.generate_prompt answer context in
  (forall raw log',
     VerificationAgent._get_llm_response self prompt log = (Returned raw, log') ->
     VerificationAgent.check self answer documents log =
       (Returned
          {| VerificationAgent.verification_report :=
               VerificationAgent.format_verification_report
                 (VerificationAgent.report_of_response raw);
             VerificationAgent.context_used := context |}, log')
     /\ all_fields_populated (VerificationAgent.report_of_response raw))
  /\ (forall e log',
        VerificationAgent._get_llm_response self prompt log = (Raised e, log') ->
        VerificationAgent.check self answer documents log =
          (Raised (Exn RuntimeError "Failed to verify answer due to a model error."
                     (Some e)), log')).
Proof.
  intros context prompt. split.
  - intros raw log' H. split; [|apply report_of_response_populated].
    unfold VerificationAgent.check. fold context. fold prompt.
    unfold_M. rewrite H. reflexivity.
  - intros e log' H. unfold VerificationAgent.check. fold context. fold prompt.
    unfold_M. rewrite H. reflexivity.
Qed.

Lemma check_report_witness :
  all_fields_populated
    (VerificationAgent.report_of_response
       (Some ("Supported: YES" +:+ PyStr.nl +:+ "Relevant: YES"))).
Proof.
  destruct (check_report
              {| VerificationAgent.primary_client :=
                   Some {| gemini_backend :=
                             always_text ("Supported: YES" +:+ PyStr.nl +:+ "Relevant: YES") |};
                 VerificationAgent.secondary_client := None |}
              "X is 42." one_doc []) as [H _].
  apply (H (Some ("Supported: YES" +:+ PyStr.nl +:+ "Relevant: YES"))
           [call_of Verification Primary
              (VerificationAgent.generate_prompt "X is 42." "X is 42.")]).
  reflexivity.
Defined.

(** C1 as stated fails: with no provider initialized, [check] raises and
    returns no report at all. *)
Lemma check_report_counterexample :
  let self := {| VerificationAgent.primary_client := None;
                 VerificationAgent.secondary_client := None |} in
  fst (VerificationAgent.check self "X is 42." one_doc []) =
    Raised (Exn RuntimeError "Failed to verify answer due to a model error."
              (Some (exhaustion_error Verification)))
  /\ ~ exists result,
         fst (VerificationAgent.check self "X is 42." one_doc []) = Returned result.
Proof.
  split; [reflexivity|]. intros [result H]. discriminate H.
Qed.

(** C2, on the code: for the response [Unsupported Claims: [a, "b", c]] the
    parser stores the three items under the key "Unsupported claims" (the
    capitalized spelling), then backfills "Unsupported Claims", the key the
    report and the formatter read, with the empty list; the rendering says
    None.  The same response under the one-word key Contradictions is
    parsed into the three items. *)
Theorem unsupported_claims_lost :
  exists report,
    VerificationAgent.parse_verification_response unsupported_abc = Some report
    /\ report !! "Unsupported Claims" = Some (VList [])
    /\ report !! "Unsupported claims" = Some (VList ["a"; "b"; "c"])
    /\ VerificationAgent.format_verification_report report =
         "**Supported:** NO" +:+ PyStr.nl +:+
         "**Unsupported Claims:** None" +:+ PyStr.nl +:+
         "**Contradictions:** None" +:+ PyStr.nl +:+
         "**Relevant:** NO" +:+ PyStr.nl +:+
         "**Additional Details:** None" +:+ PyStr.nl
    /\ VerificationAgent.parse_items ("[a, " +:+ PyStr.dquote +:+ "b" +:+ PyStr.dquote +:+ ", c]")
         = ["a"; "b"; "c"].
Proof.
  destruct (parse_verification_response_total unsupported_abc) as (report & E & _).
  exists report. split; [exact E|].
  assert (report = default ∅ (VerificationAgent.parse_verification_response unsupported_abc))
    as -> by (rewrite E; reflexivity).
  repeat split; vm_compute; reflexivity.
Qed.

(** The field the formatter reads for the unsupported claims is empty in
    every report that [check] builds, whatever the response says. *)
Lemma unsupported_claims_always_empty llm_response :
  VerificationAgent.report_of_response llm_response !! "Unsupported Claims"
  = Some (VList []).
Proof.
  unfold VerificationAgent.report_of_response.
  destruct (negb _); [reflexivity|].
  match goal with
  | |- context [VerificationAgent.parse_verification_response ?x] =>
      destruct (parse_verification_response_total x) as (report & -> & _ & H & _)
  end.
  exact H.
Qed.

(** A list value that is empty or not bracketed parses to the empty list. *)
Lemma parse_items_unbracketed value :
  PyStr.startswith value "[" && PyStr.endswith value "]" = false ->
  VerificationAgent.parse_items value = [].
Proof. intros H. unfold VerificationAgent.parse_items. rewrite H. reflexivity. Qed.

Example parse_items_empty :
  VerificationAgent.parse_items "" = []
  /\ VerificationAgent.parse_items "[]" = []
  /\ VerificationAgent.parse_items "none" = []
  /\ VerificationAgent.parse_items "[ 'x' , y ]" = ["x"; "y"].
Proof. repeat split. Qed.

(** C10: a line whose key parses to Supported or Relevant stores the
    upper-cased trimmed value; a line for Additional details stores the
    trimmed value as it is, and a line for a list field stores the items of
    the trimmed value, neither upper-cased.  Hence in every parsed report
    the Supported and Relevant values are upper-cased texts, and the
    response "Supported: yes" gives the value YES, rendered as
    "**Supported:** YES". *)
Theorem yes_no_fields_upper_cased :
  (forall verification line key value,
     PyStr.contains line ":" = true ->
     PyStr.split1 ":" line = [key; value] ->
     let k := PyStr.capitalize (PyStr.strip key) in
     (k = "Supported" \/ k = "Relevant" ->
      VerificationAgent.parse_line verification line =
        Some (<[k := VStr (PyStr.upper (PyStr.strip value))]> verification))
     /\ (k = "Additional details" ->
         VerificationAgent.parse_line verification line =
           Some (<[k := VStr (PyStr.strip value)]> verification))
     /\ (k = "Unsupported claims" \/ k = "Contradictions" ->
         VerificationAgent.parse_line verification line =
           Some (<[k := VList (VerificationAgent.parse_items (PyStr.strip value))]>
                   verification)))
  /\ (forall response_text,
        exists report s r,
          VerificationAgent.parse_verification_response response_text = Some report
          /\ report !! "Supported" = Some (VStr (PyStr.upper s))
          /\ report !! "Relevant" = Some (VStr (PyStr.upper r)))
  /\ (exists report,
        VerificationAgent.parse_verification_response "Supported: yes" = Some report
        /\ report !! "Supported" = Some (VStr "YES")
        /\ PyStr.startswith (VerificationAgent.format_verification_report report)
             ("**Supported:** YES" +:+ PyStr.nl) = true)
  /\ (exists report,
        VerificationAgent.parse_verification_response
          ("Contradictions: [x is y]" +:+ PyStr.nl +:+ "Additional details: see page 2")
          = Some report
        /\ report !! "Contradictions" = Some (VList ["x is y"])
        /\ report !! "Additional details" = Some (VStr "see page 2")).
Proof.
  split; [|split; [|split]].
  - intros verification line key value Hc Hs k.
    unfold VerificationAgent.parse_line. rewrite Hc, Hs. fold k.
    repeat split.
    + intros [-> | ->]; eval_bool_decide; reflexivity.
    + intros ->. eval_bool_decide. reflexivity.
    + intros [-> | ->]; eval_bool_decide; reflexivity.
  - intros response_text.
    destruct (parse_verification_response_total response_text)
      as (report & E & _ & _ & _ & [s Hs] & [r Hr]).
    exists report, s, r. auto.
  - destruct (parse_verification_response_total "Supported: yes") as (report & E & _).
    exists report. split; [exact E|].
    assert (report = default ∅ (VerificationAgent.parse_verification_response "Supported: yes"))
      as -> by (rewrite E; reflexivity).
    split; vm_compute; reflexivity.
  - destruct (parse_verification_response_total
                ("Contradictions: [x is y]" +:+ PyStr.nl +:+ "Additional details: see page 2"))
      as (report & E & _).
    exists report. split; [exact E|].
    assert (report = default ∅ (VerificationAgent.parse_verification_response
                                  ("Contradictions: [x is y]" +:+ PyStr.nl
                                   +:+ "Additional details: see page 2")))
      as -> by (rewrite E; reflexivity).
    split; vm_compute; reflexivity.
Qed.

Lemma yes_no_fields_upper_cased_witness :
  VerificationAgent.parse_line ∅ "relevant : yes " = Some (<["Relevant" := VStr "YES"]> ∅).
Proof.
  destruct yes_no_fields_upper_cased as [H _].
  destruct (H ∅ "relevant : yes " "relevant " " yes " eq_refl eq_refl) as [H1 _].
  apply H1. right. reflexivity.
Defined.

(** Without credentials neither client is constructed: each stage is then
    entered with both clients absent. *)
Lemma no_credentials_no_clients gemini openai :
  let settings := {| GOOGLE_API_KEY := None; OPENAI_API_KEY := Some "" |} in
  RelevanceChecker.__init__ settings gemini openai =
    {| RelevanceChecker.primary_client := None; RelevanceChecker.secondary_client := None |}
  /\ ResearchAgent.__init__ settings gemini openai =
       {| ResearchAgent.primary_client := None; ResearchAgent.secondary_client := None |}
  /\ VerificationAgent.__init__ settings gemini openai =
       {| VerificationAgent.primary_client := None;
          VerificationAgent.secondary_client := None |}.
Proof. repeat split. Qed.

(** * Further properties of the code *)

(** ** More on the string methods *)

Section MoreStringLemmas.
Import PyStr.

Lemma upper_lower_char c : upper_char (lower_char c) = upper_char c.
Proof. destruct c as [[] [] [] [] [] [] [] []]; reflexivity. Qed.

Lemma lower_lower_char c : lower_char (lower_char c) = lower_char c.
Proof. destruct c as [[] [] [] [] [] [] [] []]; reflexivity. Qed.

Lemma upper_upper_char c : upper_char (upper_char c) = upper_char c.
Proof. destruct c as [[] [] [] [] [] [] [] []]; reflexivity. Qed.

Lemma isspace_lower_char c : isspace (lower_char c) = isspace c.
Proof. destruct c as [[] [] [] [] [] [] [] []]; reflexivity. Qed.

Lemma map_chars_map_chars f g s :
  map_chars f (map_chars g s) = map_chars (fun c => f (g c)) s.
Proof. induction s as [|c s IH]; simpl; [reflexivity | rewrite IH; reflexivity]. Qed.

Lemma map_chars_ext f g s :
  (forall c, f c = g c) -> map_chars f s = map_chars g s.
Proof. intros H. induction s as [|c s IH]; simpl; [reflexivity | rewrite H, IH; reflexivity]. Qed.

Lemma upper_lower s : upper (lower s) = upper s.
Proof.
  unfold upper, lower. rewrite map_chars_map_chars.
  apply map_chars_ext, upper_lower_char.
Qed.

Lemma upper_upper s : upper (upper s) = upper s.
Proof.
  unfold upper. rewrite map_chars_map_chars.
  apply map_chars_ext, upper_upper_char.
Qed.

Lemma lower_lower s : lower (lower s) = lower s.
Proof.
  unfold lower. rewrite map_chars_map_chars.
  apply map_chars_ext, lower_lower_char.
Qed.

Lemma lower_strip s : lower (strip s) = strip (lower s).
Proof.
  unfold lower, strip, strip_with.
  rewrite map_chars_rstrip, map_chars_lstrip; auto using isspace_lower_char.
Qed.

(** [capitalize] sees its argument only up to case. *)
Lemma capitalize_lower s : capitalize (lower s) = capitalize s.
Proof.
  destruct s as [|c s]; [reflexivity|].
  cbn [lower map_chars capitalize]. fold (lower s).
  rewrite upper_lower_char, lower_lower. reflexivity.
Qed.

Lemma capitalize_same_lower s t : lower s = lower t -> capitalize s = capitalize t.
Proof. intros H. rewrite <- (capitalize_lower s), <- (capitalize_lower t), H. reflexivity. Qed.

End MoreStringLemmas.

(** ** More on the verification parser and formatter *)

Section MoreParser.
Import PyStr.

Lemma append_cons c s t : String c s +:+ t = String c (s +:+ t).
Proof. reflexivity. Qed.

Lemma split1_free key rest :
  free_of ":" key -> split1 ":" (key +:+ String ":" rest) = [key; rest].
Proof.
  unfold free_of. induction key as [|c key IH]; intros H; [reflexivity|].
  cbn [char_in] in H. rewrite Ascii.eqb_sym in H.
  rewrite append_cons. cbn [split1].
  destruct (Ascii.eqb c ":"); [discriminate|]. rewrite (IH H). reflexivity.
Qed.

Lemma contains_colon key rest : contains (key +:+ String ":" rest) ":" = true.
Proof.
  induction key as [|c key IH]; [destruct rest; reflexivity|].
  rewrite append_cons. apply contains_cons. exact IH.
Qed.

(** What the loop body does to a line: nothing, or one store whose key and
    value depend on the line only. *)
Lemma parse_line_shape line :
  (field_key line = None /\ forall v, VerificationAgent.parse_line v line = Some v)
  \/ (exists k x, field_key line = Some k
                  /\ forall v, VerificationAgent.parse_line v line = Some (<[k := x]> v)).
Proof.
  unfold field_key, VerificationAgent.parse_line.
  destruct (contains line ":") eqn:Hc; [|left; auto].
  destruct (split1_two line Hc) as (key & value & ->).
  case_bool_decide as Hk; [|left; auto].
  right. exists (capitalize (strip key)).
  repeat case_bool_decide; eexists; (split; [reflexivity|]); intros v; reflexivity.
Qed.

Lemma parse_lines_app lines1 : forall lines2 v,
  VerificationAgent.parse_lines v (lines1 ++ lines2) =
  match VerificationAgent.parse_lines v lines1 with
  | Some v1 => VerificationAgent.parse_lines v1 lines2
  | None => None
  end.
Proof.
  induction lines1 as [|l lines1 IH]; intros lines2 v; [reflexivity|].
  cbn [app VerificationAgent.parse_lines].
  destruct (VerificationAgent.parse_line v l); [apply IH | reflexivity].
Qed.

Lemma parse_lines_some lines : forall v,
  exists v', VerificationAgent.parse_lines v lines = Some v'.
Proof.
  induction lines as [|l lines IH]; intros v; [eauto|].
  cbn [VerificationAgent.parse_lines].
  destruct (parse_line_shape l) as [[_ H]|(k & x & _ & H)]; rewrite H; apply IH.
Qed.

(** Lines that store nothing can be dropped. *)
Lemma parse_lines_filter lines : forall v,
  VerificationAgent.parse_lines v lines =
  VerificationAgent.parse_lines v (List.filter is_field_line lines).
Proof.
  induction lines as [|l lines IH]; intros v; [reflexivity|].
  cbn [List.filter]. unfold is_field_line at 1.
  destruct (parse_line_shape l) as [[E H]|(k & x & E & H)]; rewrite E;
    cbn [VerificationAgent.parse_lines]; rewrite H; apply IH.
Qed.

(** Lines that store under other keys leave the value of [k] alone. *)
Lemma parse_lines_other_keys k rest : forall v v',
  Forall (fun r => field_key r <> Some k) rest ->
  VerificationAgent.parse_lines v rest = Some v' ->
  v' !! k = v !! k.
Proof.
  induction rest as [|r rest IH]; intros v v' HF H.
  - injection H as <-. reflexivity.
  - inversion HF as [|? ? Hr HF']; subst.
    cbn [VerificationAgent.parse_lines] in H.
    destruct (parse_line_shape r) as [[_ Hp]|(k' & x & E & Hp)]; rewrite Hp in H.
    + apply (IH _ _ HF' H).
    + rewrite (IH _ _ HF' H). apply lookup_insert_ne. congruence.
Qed.

Lemma split_free c s : free_of c s -> split c s = [s].
Proof.
  unfold free_of. induction s as [|d s IH]; intros H; [reflexivity|].
  cbn [char_in] in H. rewrite Ascii.eqb_sym in H. cbn [split].
  destruct (Ascii.eqb d c); [discriminate|]. rewrite (IH H). reflexivity.
Qed.

Lemma split_app_sep c s t :
  free_of c s -> split c (s +:+ String c t) = s :: split c t.
Proof.
  unfold free_of. induction s as [|d s IH]; intros H.
  - change (EmptyString +:+ String c t) with (String c t).
    cbn [split]. rewrite Ascii.eqb_refl. reflexivity.
  - cbn [char_in] in H. rewrite Ascii.eqb_sym in H. rewrite append_cons. cbn [split].
    destruct (Ascii.eqb d c); [discriminate|]. rewrite (IH H). reflexivity.
Qed.

Lemma join_cons2 c x y l :
  join (String c EmptyString) (x :: y :: l) =
  x +:+ String c (join (String c EmptyString) (y :: l)).
Proof. reflexivity. Qed.

(** Splitting at the separator undoes joining with it. *)
Lemma split_join c lines :
  lines <> [] -> Forall (free_of c) lines ->
  split c (join (String c EmptyString) lines) = lines.
Proof.
  intros Hne HF. induction HF as [|l lines Hl HF IH]; [congruence|].
  destruct lines as [|l' lines].
  - cbn. apply split_free. exact Hl.
  - rewrite join_cons2, split_app_sep by exact Hl.
    rewrite IH by discriminate. reflexivity.
Qed.

End MoreParser.

Section ParserProperties.
Import PyStr.

(** X1: the key of a response line is matched up to case and surrounding
    white space: two lines with the same value whose keys agree after
    trimming and lower-casing are stored identically. *)
Theorem key_matching_insensitive
    (verification : gmap string Value) (key1 key2 value : string) :
  free_of ":" key1 -> free_of ":" key2 ->
  lower (strip key1) = lower (strip key2) ->
  VerificationAgent.parse_line verification (key1 +:+ String ":" value) =
  VerificationAgent.parse_line verification (key2 +:+ String ":" value).
Proof.
  intros H1 H2 H. unfold VerificationAgent.parse_line.
  rewrite !contains_colon, !split1_free by assumption.
  rewrite (capitalize_same_lower _ _ H). reflexivity.
Qed.

Lemma key_matching_insensitive_witness :
  VerificationAgent.parse_line ∅ ("  SUPPORTED " +:+ String ":" " yes") =
  VerificationAgent.parse_line ∅ ("supported" +:+ String ":" " yes").
Proof. apply key_matching_insensitive; reflexivity. Defined.

(** X2: lines without a colon, and lines whose key is not one of the five
    accepted ones, can be removed from a response without changing the
    parsed report. *)
Theorem unknown_lines_ignored (lines : list string) :
  Forall (free_of "010") lines ->
  VerificationAgent.parse_verification_response (join nl lines) =
  VerificationAgent.parse_verification_response
    (join nl (List.filter is_field_line lines)).
Proof.
  intros HF. unfold VerificationAgent.parse_verification_response.
  assert (HF' : Forall (free_of "010") (List.filter is_field_line lines)).
  { rewrite Forall_forall in *. intros l Hl. apply HF.
    apply list_elem_of_In. apply list_elem_of_In in Hl.
    apply List.filter_In in Hl. tauto. }
  assert (Hsplit : forall ls, Forall (free_of "010") ls ->
            VerificationAgent.parse_lines ∅ (split "010" (join nl ls)) =
            VerificationAgent.parse_lines ∅ ls).
  { intros [|l ls] Hls; [reflexivity|].
    unfold nl. rewrite split_join; [reflexivity | discriminate | exact Hls]. }
  rewrite (Hsplit _ HF), (Hsplit _ HF'), <- parse_lines_filter. reflexivity.
Qed.

Lemma unknown_lines_ignored_witness :
  VerificationAgent.parse_verification_response
    (join nl ["Here is my verdict"; "Supported: yes"; "Confidence: high"]) =
  VerificationAgent.parse_verification_response (join nl ["Supported: yes"]).
Proof.
  apply (unknown_lines_ignored ["Here is my verdict"; "Supported: yes"; "Confidence: high"]).
  repeat constructor.
Defined.

Lemma backfill_lookup_present keys : forall (v : gmap string Value) k,
  is_Some (v !! k) ->
  foldl VerificationAgent.ensure_key v keys !! k = v !! k.
Proof.
  induction keys as [|key keys IH]; intros v k Hk; [reflexivity|].
  cbn [foldl].
  assert (E : VerificationAgent.ensure_key v key !! k = v !! k).
  { destruct (decide (key = k)) as [->|Hne].
    - unfold VerificationAgent.ensure_key. destruct Hk as [x Hx]. rewrite Hx. exact Hx.
    - apply ensure_key_other. exact Hne. }
  rewrite IH; [exact E | rewrite E; exact Hk].
Qed.

(** X3: when a key occurs on several lines of a response, the last of
    them decides: the parsed report holds for that key the value that this
    line alone would store. *)
Theorem last_line_wins (lines rest : list string) (line k : string) :
  Forall (free_of "010") (lines ++ line :: rest) ->
  field_key line = Some k ->
  Forall (fun r => field_key r <> Some k) rest ->
  exists report alone,
    VerificationAgent.parse_verification_response (join nl (lines ++ line :: rest))
      = Some report
    /\ VerificationAgent.parse_line ∅ line = Some alone
    /\ is_Some (alone !! k)
    /\ report !! k = alone !! k.
Proof.
  intros HF Hk Hrest. unfold VerificationAgent.parse_verification_response.
  unfold nl. rewrite split_join; [|destruct lines; discriminate|exact HF].
  rewrite parse_lines_app.
  destruct (parse_lines_some lines ∅) as [v0 ->].
  cbn [VerificationAgent.parse_lines].
  destruct (parse_line_shape line) as [[E _]|(k' & x & E & Hp)]; [congruence|].
  assert (k' = k) as -> by congruence.
  rewrite (Hp v0).
  destruct (parse_lines_some rest (<[k:=x]> v0)) as [v1 Hv1]. rewrite Hv1.
  pose proof (parse_lines_other_keys k rest _ _ Hrest Hv1) as Hl.
  rewrite lookup_insert_eq in Hl.
  exists (foldl VerificationAgent.ensure_key v1 VerificationAgent.report_keys),
         (<[k:=x]> ∅).
  split; [reflexivity|]. split; [apply Hp|].
  rewrite lookup_insert_eq. split; [eauto|].
  rewrite backfill_lookup_present; [exact Hl | rewrite Hl; eauto].
Qed.

Lemma last_line_wins_witness :
  exists report alone,
    VerificationAgent.parse_verification_response
      (join nl (["Supported: yes"] ++ "Supported: no" :: ["Relevant: yes"])) = Some report
    /\ VerificationAgent.parse_line ∅ "Supported: no" = Some alone
    /\ is_Some (alone !! "Supported")
    /\ report !! "Supported" = alone !! "Supported".
Proof.
  apply (last_line_wins ["Supported: yes"] ["Relevant: yes"] "Supported: no" "Supported").
  - repeat constructor.
  - reflexivity.
  - repeat constructor. vm_compute. discriminate.
Defined.

End ParserProperties.

Section FormatterProperties.
Import PyStr.

Lemma append_assoc (a b c : string) : (a +:+ b) +:+ c = a +:+ (b +:+ c).
Proof. induction a as [|x a IH]; [reflexivity|]. rewrite !append_cons, IH. reflexivity. Qed.

(** The rendering in terms of the five values read. *)
Lemma format_eq verification :
  VerificationAgent.format_verification_report verification =
  "**Supported:** "
    +:+ PyVal.str (VerificationAgent.get verification "Supported" (VStr "NO")) +:+ nl
  +:+ "**Unsupported Claims:** "
    +:+ (let v := VerificationAgent.get verification "Unsupported Claims" (VList []) in
         if PyVal.truthy v then join ", " (PyVal.iter v) else "None") +:+ nl
  +:+ "**Contradictions:** "
    +:+ (let v := VerificationAgent.get verification "Contradictions" (VList []) in
         if PyVal.truthy v then join ", " (PyVal.iter v) else "None") +:+ nl
  +:+ "**Relevant:** "
    +:+ PyVal.str (VerificationAgent.get verification "Relevant" (VStr "NO")) +:+ nl
  +:+ "**Additional Details:** "
    +:+ (let v := VerificationAgent.get verification "Additional Details" (VStr "") in
         if PyVal.truthy v then PyVal.str v else "None") +:+ nl.
Proof.
  unfold VerificationAgent.format_verification_report. cbv zeta.
  destruct (PyVal.truthy (VerificationAgent.get verification "Unsupported Claims" _));
    destruct (PyVal.truthy (VerificationAgent.get verification "Contradictions" _));
    destruct (PyVal.truthy (VerificationAgent.get verification "Additional Details" _));
    rewrite !append_assoc; reflexivity.
Qed.

(** X4: for every response text the parser returns a report, and its
    rendering has a fixed shape: five lines in the order Supported,
    Unsupported Claims, Contradictions, Relevant, Additional Details, with
    upper-cased Supported and Relevant values, and with None on the
    Unsupported Claims and Additional Details lines whatever the response
    says about them. *)
Theorem parsed_rendering_shape (response_text : string) :
  exists report s r c,
    VerificationAgent.parse_verification_response response_text = Some report
    /\ VerificationAgent.format_verification_report report =
         "**Supported:** " +:+ upper s +:+ nl
         +:+ "**Unsupported Claims:** None" +:+ nl
         +:+ "**Contradictions:** " +:+ c +:+ nl
         +:+ "**Relevant:** " +:+ upper r +:+ nl
         +:+ "**Additional Details:** None" +:+ nl.
Proof.
  destruct (parse_verification_response_total response_text)
    as (report & E & (_ & _ & [items Hc] & _ & _) & Hu & Ha & [s Hs] & [r Hr]).
  exists report, s, r,
    (if PyVal.truthy (VList items) then join ", " items else "None").
  split; [exact E|].
  rewrite format_eq. unfold VerificationAgent.get.
  rewrite Hs, Hu, Hc, Hr, Ha. cbv zeta.
  cbn [PyVal.str PyVal.truthy PyStr.truthy PyVal.iter].
  reflexivity.
Qed.

(** X5: the backfilling loop of the parser does not change what the
    formatter renders: the formatter's own defaults are the values the
    loop fills in. *)
Theorem backfill_keeps_rendering (verification : gmap string Value) :
  VerificationAgent.format_verification_report
    (foldl VerificationAgent.ensure_key verification VerificationAgent.report_keys)
  = VerificationAgent.format_verification_report verification.
Proof.
  assert (H : forall k, k ∈ VerificationAgent.report_keys ->
            VerificationAgent.get
              (foldl VerificationAgent.ensure_key verification VerificationAgent.report_keys)
              k (default_of k)
            = VerificationAgent.get verification k (default_of k)).
  { intros k Hk. unfold VerificationAgent.get at 1. rewrite backfill_lookup by exact Hk.
    reflexivity. }
  rewrite !format_eq.
  change (VStr "NO") with (default_of "Supported") at 1 3.
  change (VStr "NO") with (default_of "Relevant").
  change (VList []) with (default_of "Unsupported Claims") at 1 3.
  change (VList []) with (default_of "Contradictions").
  change (VStr "") with (default_of "Additional Details").
  rewrite !H by (unfold VerificationAgent.report_keys; set_unfold; tauto).
  reflexivity.
Qed.

(** X6: a response that is empty or consists of white space only, or a
    missing one ([None]), is not parsed: the report is the all-default one
    whose Additional Details says that the response was empty, and so does
    the rendering. *)
Theorem blank_response_report (llm_response : string) :
  strip llm_response = "" ->
  VerificationAgent.report_of_response (Some llm_response) =
    VerificationAgent.default_report "Empty response from the model."
  /\ VerificationAgent.format_verification_report
       (VerificationAgent.report_of_response (Some llm_response)) =
       "**Supported:** NO" +:+ nl
       +:+ "**Unsupported Claims:** None" +:+ nl
       +:+ "**Contradictions:** None" +:+ nl
       +:+ "**Relevant:** NO" +:+ nl
       +:+ "**Additional Details:** Empty response from the model." +:+ nl
  /\ VerificationAgent.report_of_response None =
       VerificationAgent.default_report "Empty response from the model.".
Proof.
  intros H.
  assert (E : VerificationAgent.report_of_response (Some llm_response) =
              VerificationAgent.default_report "Empty response from the model.").
  { unfold VerificationAgent.report_of_response, VerificationAgent.sanitize_response.
    rewrite H. destruct (truthy llm_response); reflexivity. }
  split; [exact E|]. split; [|reflexivity]. rewrite E. vm_compute. reflexivity.
Qed.

Lemma blank_response_report_witness :
  VerificationAgent.report_of_response (Some ("  " +:+ nl +:+ " ")) =
  VerificationAgent.default_report "Empty response from the model.".
Proof. apply blank_response_report. reflexivity. Defined.

End FormatterProperties.

(** ** More on the relevance classifier *)

Section MoreRelevance.
Import PyStr.

(** X7: the classification depends on the raw output only up to case and
    surrounding white space, and each of the three labels classifies as
    itself. *)
Theorem classify_insensitive (raw1 raw2 : string) :
  lower (strip raw1) = lower (strip raw2) ->
  RelevanceChecker.classify raw1 = RelevanceChecker.classify raw2
  /\ (forall label, label ∈ labels -> RelevanceChecker.classify label = label).
Proof.
  intros H. split.
  - unfold RelevanceChecker.classify.
    rewrite <- (upper_lower (strip raw1)), <- (upper_lower (strip raw2)), H.
    reflexivity.
  - intros label Hl. unfold labels in Hl. set_unfold in Hl.
    destruct Hl as [->|[->|[->|[]]]]; reflexivity.
Qed.

Lemma classify_insensitive_witness :
  RelevanceChecker.classify ("  Partial" +:+ nl) = RelevanceChecker.classify "PARTIAL".
Proof. apply (classify_insensitive ("  Partial" +:+ nl) "PARTIAL"). reflexivity. Defined.

Lemma take_py_nonneg {A} (k : Z) (xs : list A) :
  0 <= k -> take_py k xs = take (Z.to_nat k) xs.
Proof.
  intros Hk. unfold take_py, clamp_index.
  destruct (k <? 0) eqn:E; [apply Z.ltb_lt in E; lia|].
  destruct (Z.le_gt_cases k (Z.of_nat (length xs))) as [Hle|Hgt].
  - rewrite Z.min_l by lia. reflexivity.
  - rewrite Z.min_r by lia. rewrite Nat2Z.id.
    rewrite !take_ge by lia. reflexivity.
Qed.

(** X8: for k >= 0 the relevance check uses the first k retrieved passages
    only: at most k passages enter the prompt, and two retrievers whose
    non-empty results agree on their first k passages get the same
    verdict and cause the same provider calls. *)
Theorem only_top_k_passages
    (self : RelevanceChecker.t) (question : string)
    (retriever1 retriever2 : string -> list Document) (k : Z) (log : Log) :
  0 <= k ->
  retriever1 question <> [] -> retriever2 question <> [] ->
  take (Z.to_nat k) (retriever1 question) = take (Z.to_nat k) (retriever2 question) ->
  (length (take_py k (retriever1 question)) <= Z.to_nat k)%nat
  /\ RelevanceChecker.check self question retriever1 k log =
     RelevanceChecker.check self question retriever2 k log.
Proof.
  intros Hk H1 H2 Ht. split.
  - rewrite take_py_nonneg by exact Hk. rewrite length_take. lia.
  - unfold RelevanceChecker.check, RelevanceChecker.document_content_of.
    rewrite !take_py_nonneg by exact Hk. rewrite <- Ht.
    destruct (retriever1 question); [congruence|].
    destruct (retriever2 question); [congruence|]. reflexivity.
Qed.

Lemma only_top_k_passages_witness :
  RelevanceChecker.check
    {| RelevanceChecker.primary_client := Some {| gemini_backend := always_text "PARTIAL" |};
       RelevanceChecker.secondary_client := None |}
    "What is X?" (fun _ => one_doc ++ [ {| page_content := "unrelated" |} ]) 1 [] =
  RelevanceChecker.check
    {| RelevanceChecker.primary_client := Some {| gemini_backend := always_text "PARTIAL" |};
       RelevanceChecker.secondary_client := None |}
    "What is X?" (fun _ => one_doc) 1 [].
Proof.
  apply only_top_k_passages.
  - lia.
  - discriminate.
  - discriminate.
  - reflexivity.
Defined.

End MoreRelevance.

(** ** More on the fallback coordination and the three public methods *)

Section MoreFallback.
Import PyStr.

Lemma check_no_passages self question retriever k log :
  retriever question = [] ->
  RelevanceChecker.check self question retriever k log = (Returned "NO_MATCH", log).
Proof. intros H. unfold RelevanceChecker.check. rewrite H. reflexivity. Qed.

Lemma resolve_calls_uniform st p s prompt log :
  exists calls,
    snd (resolve st p s prompt log) = log ++ calls
    /\ Forall (fun c => call_prompt c = prompt
                        /\ call_constraints c = stage_constraints st) calls
    /\ (forall c, c ∈ calls -> call_provider c = Primary -> is_Some p)
    /\ (forall c, c ∈ calls -> call_provider c = Secondary -> is_Some s).
Proof.
  destruct st, p as [pc|], s as [sc|]; unfold_fallback;
    try destruct (gemini_backend pc log prompt _);
    try destruct (openai_backend sc _ prompt _);
    try destruct (PyStr.contains _ "429");
    cbn [snd].
  all: try (rewrite <- app_assoc; eexists; split; [reflexivity|];
            split; [repeat constructor|];
            split; intros c Hc Hp; set_unfold in Hc; destruct_or!; subst;
            try discriminate; eauto).
  all: try (eexists; split; [reflexivity|];
            split; [repeat constructor|];
            split; intros c Hc Hp; set_unfold in Hc; destruct_or!; subst;
            try discriminate; eauto).
  all: try (exists []; split; [symmetry; apply app_nil_r|];
            split; [constructor|];
            split; intros c Hc Hp; set_unfold in Hc; destruct Hc).
Qed.

Lemma relevance_check_log self question retriever k log :
  retriever question <> [] ->
  snd (RelevanceChecker.check self question retriever k log) =
  snd (RelevanceChecker._get_llm_response self
         (RelevanceChecker.prompt_of question
            (RelevanceChecker.document_content_of (retriever question) k)) log).
Proof.
  intros Hne.
  destruct (RelevanceChecker._get_llm_response self _ log) as [[[raw|]|e] log'] eqn:H.
  - rewrite (check_returned _ _ _ _ _ _ _ Hne H). reflexivity.
  - rewrite (check_none _ _ _ _ _ _ Hne H). reflexivity.
  - rewrite (check_raised _ _ _ _ _ _ _ Hne H). reflexivity.
Qed.

Lemma generate_log self question documents log :
  snd (ResearchAgent.generate self question documents log) =
  snd (ResearchAgent._get_llm_response self
         (ResearchAgent.generate_prompt question
            (join (nl +:+ nl) (page_content <$> documents))) log).
Proof.
  unfold ResearchAgent.generate. unfold_M.
  destruct (ResearchAgent._get_llm_response self _ log) as [[raw|e] log']; reflexivity.
Qed.

Lemma verification_check_log self answer documents log :
  snd (VerificationAgent.check self answer documents log) =
  snd (VerificationAgent._get_llm_response self
         (VerificationAgent.generate_prompt answer
            (join (nl +:+ nl) (page_content <$> documents))) log).
Proof.
  unfold VerificationAgent.check. unfold_M.
  destruct (VerificationAgent._get_llm_response self _ log) as [[raw|e] log']; reflexivity.
Qed.

(** X9: every provider call of a request carries the prompt built from the
    request and the constraints of its stage, the same for the Primary and
    the Secondary: 1000 tokens at temperature 0 for the relevance check,
    4000 tokens at temperature 0.3 for drafting, 3000 tokens at
    temperature 0 for verification. *)
Theorem calls_carry_stage_prompt :
  (forall self question retriever k log,
     exists calls,
       snd (RelevanceChecker.check self question retriever k log) = log ++ calls
       /\ Forall (fun c =>
                    call_prompt c =
                      RelevanceChecker.prompt_of question
                        (RelevanceChecker.document_content_of (retriever question) k)
                    /\ call_constraints c = {| max_tokens := 1000; temperature := 0 |})
            calls)
  /\ (forall self question documents log,
        exists calls,
          snd (ResearchAgent.generate self question documents log) = log ++ calls
          /\ Forall (fun c =>
                       call_prompt c =
                         ResearchAgent.generate_prompt question
                           (join (nl +:+ nl) (page_content <$> documents))
                       /\ call_constraints c = {| max_tokens := 4000; temperature := 3 # 10 |})
               calls)
  /\ (forall self answer documents log,
        exists calls,
          snd (VerificationAgent.check self answer documents log) = log ++ calls
          /\ Forall (fun c =>
                       call_prompt c =
                         VerificationAgent.generate_prompt answer
                           (join (nl +:+ nl) (page_content <$> documents))
                       /\ call_constraints c = {| max_tokens := 3000; temperature := 0 |})
               calls).
Proof.
  split; [|split].
  - intros self question retriever k log.
    destruct (retriever question) as [|d ds] eqn:E.
    + exists []. rewrite check_no_passages by exact E.
      split; [symmetry; apply app_nil_r | constructor].
    + rewrite relevance_check_log by congruence.
      rewrite RelevanceChecker_resolve, E.
      destruct (resolve_calls_uniform Relevance (RelevanceChecker.primary_client self)
                  (RelevanceChecker.secondary_client self)
                  (RelevanceChecker.prompt_of question
                     (RelevanceChecker.document_content_of (d :: ds) k)) log)
        as (calls & H1 & H2 & _).
      exists calls. split; assumption.
  - intros self question documents log.
    rewrite generate_log, ResearchAgent_resolve.
    destruct (resolve_calls_uniform Drafting (ResearchAgent.primary_client self)
                (ResearchAgent.secondary_client self)
                (ResearchAgent.generate_prompt question
                   (join (nl +:+ nl) (page_content <$> documents))) log)
      as (calls & H1 & H2 & _).
    exists calls. split; assumption.
  - intros self answer documents log.
    rewrite verification_check_log, VerificationAgent_resolve.
    destruct (resolve_calls_uniform Verification (VerificationAgent.primary_client self)
                (VerificationAgent.secondary_client self)
                (VerificationAgent.generate_prompt answer
                   (join (nl +:+ nl) (page_content <$> documents))) log)
      as (calls & H1 & H2 & _).
    exists calls. split; assumption.
Qed.

End MoreFallback.

(** ** Prompts and contexts *)

Section Prompts.
Import PyStr.

Lemma startswith_empty s : startswith s EmptyString = true.
Proof. destruct s; reflexivity. Qed.

Lemma startswith_append s t : startswith (s +:+ t) s = true.
Proof.
  induction s as [|c s IH]; [apply startswith_empty|].
  rewrite append_cons. cbn [startswith]. rewrite Ascii.eqb_refl. exact IH.
Qed.

Lemma contains_append_r a s sub :
  contains s sub = true -> contains (a +:+ s) sub = true.
Proof.
  intros H. induction a as [|c a IH]; [exact H|].
  rewrite append_cons. apply contains_cons. exact IH.
Qed.

Lemma contains_here s t : contains (s +:+ t) s = true.
Proof. apply startswith_contains, startswith_append. Qed.

Lemma contains_self s : contains s s = true.
Proof.
  apply startswith_contains. induction s as [|c s IH]; [reflexivity|].
  cbn [startswith]. rewrite Ascii.eqb_refl. exact IH.
Qed.

Ltac find_in_prompt :=
  repeat first [ apply contains_here | apply contains_self | apply contains_append_r ].

(** X10: each of the three prompt templates carries its inputs verbatim:
    the question and the passages for the relevance check, the question
    and the context for drafting, the answer and the context for
    verification. *)
Theorem prompts_embed_inputs (a b : string) :
  (contains (RelevanceChecker.prompt_of a b) a = true
   /\ contains (RelevanceChecker.prompt_of a b) b = true)
  /\ (contains (ResearchAgent.generate_prompt a b) a = true
      /\ contains (ResearchAgent.generate_prompt a b) b = true)
  /\ (contains (VerificationAgent.generate_prompt a b) a = true
      /\ contains (VerificationAgent.generate_prompt a b) b = true).
Proof.
  unfold RelevanceChecker.prompt_of, ResearchAgent.generate_prompt,
    VerificationAgent.generate_prompt.
  repeat split; find_in_prompt.
Qed.

Lemma contains_join sep (l : list string) x :
  x ∈ l -> contains (join sep l) x = true.
Proof.
  unfold join. induction l as [|y l IH]; intros Hx; [set_solver|].
  destruct l as [|z l].
  - assert (x = y) as -> by (set_unfold in Hx; tauto). apply contains_self.
  - change (String.concat sep (y :: z :: l))
      with (y +:+ sep +:+ String.concat sep (z :: l)).
    apply elem_of_cons in Hx as [->|Hx]; [apply contains_here|].
    do 2 apply contains_append_r. apply IH, Hx.
Qed.

(** X11: drafting and verification of the same documents work on the same
    evidence: when both return, their [context_used] fields are equal, and
    that context contains the content of every document. *)
Theorem same_context_used
    (drafter : ResearchAgent.t) (verifier : VerificationAgent.t)
    (question answer : string) (documents : list Document) (log1 log2 : Log)
    (draft : ResearchAgent.DraftAnswer) (report : VerificationAgent.CheckResult)
    (log1' log2' : Log) :
  ResearchAgent.generate drafter question documents log1 = (Returned draft, log1') ->
  VerificationAgent.check verifier answer documents log2 = (Returned report, log2') ->
  ResearchAgent.context_used draft = VerificationAgent.context_used report
  /\ (forall doc, doc ∈ documents ->
        contains (ResearchAgent.context_used draft) (page_content doc) = true).
Proof.
  intros Hg Hc.
  assert (E1 : ResearchAgent.context_used draft =
               join (nl +:+ nl) (page_content <$> documents)).
  { unfold ResearchAgent.generate in Hg. unfold_M.
    destruct (ResearchAgent._get_llm_response drafter _ log1) as [[raw|e] l];
      inversion Hg; reflexivity. }
  assert (E2 : VerificationAgent.context_used report =
               join (nl +:+ nl) (page_content <$> documents)).
  { unfold VerificationAgent.check in Hc. unfold_M.
    destruct (VerificationAgent._get_llm_response verifier _ log2) as [[raw|e] l];
      inversion Hc; reflexivity. }
  split; [congruence|].
  intros doc Hdoc. rewrite E1. apply contains_join.
  apply list_elem_of_fmap. exists doc. auto.
Qed.

Lemma same_context_used_witness :
  ResearchAgent.context_used
    {| ResearchAgent.draft_answer := "X is 42.";
       ResearchAgent.context_used := "X is 42." |} =
  VerificationAgent.context_used
    {| VerificationAgent.verification_report :=
         VerificationAgent.format_verification_report
           (VerificationAgent.report_of_response (Some "Supported: YES"));
       VerificationAgent.context_used := "X is 42." |}.
Proof.
  apply (same_context_used
           {| ResearchAgent.primary_client := Some {| gemini_backend := always_text "X is 42." |};
              ResearchAgent.secondary_client := None |}
           {| VerificationAgent.primary_client :=
                Some {| gemini_backend := always_text "Supported: YES" |};
              VerificationAgent.secondary_client := None |}
           "What is X?" "X is 42." one_doc [] []
           _ _
           [call_of Drafting Primary (ResearchAgent.generate_prompt "What is X?" "X is 42.")]
           [call_of Verification Primary
              (VerificationAgent.generate_prompt "X is 42." "X is 42.")]).
  - reflexivity.
  - reflexivity.
Defined.

End Prompts.

(** ** Credentials *)

Section Credentials.

Lemma resolve_none_none st prompt log :
  resolve st None None prompt log = (Raised (exhaustion_error st), log).
Proof. destruct st; reflexivity. Qed.

(** X12: agents constructed without any usable credential (key absent or
    empty) have no client, and then no request reaches a provider: the
    relevance check answers NO_MATCH for every question and retriever,
    drafting and verification raise their model-error failure caused by
    the exhaustion error, and the call log is unchanged. *)
Theorem no_credentials_no_calls
    (settings : Settings) (gemini openai : Backend)
    (question : string) (retriever : string -> list Document) (k : Z)
    (documents : list Document) (log : Log) :
  key_truthy (GOOGLE_API_KEY settings) = false ->
  key_truthy (OPENAI_API_KEY settings) = false ->
  RelevanceChecker.check (RelevanceChecker.__init__ settings gemini openai)
    question retriever k log = (Returned "NO_MATCH", log)
  /\ ResearchAgent.generate (ResearchAgent.__init__ settings gemini openai)
       question documents log =
       (Raised (Exn RuntimeError "Failed to generate answer due to a model error."
                  (Some (exhaustion_error Drafting))), log)
  /\ VerificationAgent.check (VerificationAgent.__init__ settings gemini openai)
       question documents log =
       (Raised (Exn RuntimeError "Failed to verify answer due to a model error."
                  (Some (exhaustion_error Verification))), log).
Proof.
  intros Hg Ho.
  unfold RelevanceChecker.__init__, ResearchAgent.__init__, VerificationAgent.__init__,
    GeminiClient_init, OpenAIClient_init.
  rewrite Hg, Ho. cbn [init_or_None]. split; [|split].
  - destruct (retriever question) as [|d ds] eqn:E.
    + apply check_no_passages. exact E.
    + eapply check_raised; [congruence|]. rewrite RelevanceChecker_resolve.
      apply resolve_none_none.
  - unfold ResearchAgent.generate. unfold_M. rewrite ResearchAgent_resolve.
    cbn [ResearchAgent.primary_client ResearchAgent.secondary_client].
    rewrite resolve_none_none. reflexivity.
  - unfold VerificationAgent.check. unfold_M. rewrite VerificationAgent_resolve.
    cbn [VerificationAgent.primary_client VerificationAgent.secondary_client].
    rewrite resolve_none_none. reflexivity.
Qed.

Lemma no_credentials_no_calls_witness :
  RelevanceChecker.check
    (RelevanceChecker.__init__ {| GOOGLE_API_KEY := None; OPENAI_API_KEY := Some "" |}
       (always_text "CAN_ANSWER") (always_text "CAN_ANSWER"))
    "What is X?" (fun _ => one_doc) 3 [] = (Returned "NO_MATCH", []).
Proof.
  apply (no_credentials_no_calls
           {| GOOGLE_API_KEY := None; OPENAI_API_KEY := Some "" |}
           (always_text "CAN_ANSWER") (always_text "CAN_ANSWER")
           "What is X?" (fun _ => one_doc) 3 one_doc []); reflexivity.
Defined.

(** X13: the two clients are constructed independently: with a usable
    OpenAI key and no Gemini key, every call a stage makes goes to the
    Secondary, and an answer of the Secondary is the result, obtained with
    one call. *)
Theorem openai_only_credential
    (settings : Settings) (gemini openai : Backend) (prompt : string) (log : Log) :
  key_truthy (GOOGLE_API_KEY settings) = false ->
  key_truthy (OPENAI_API_KEY settings) = true ->
  let drafter := ResearchAgent.__init__ settings gemini openai in
  ResearchAgent.primary_client drafter = None
  /\ ResearchAgent.secondary_client drafter = Some {| openai_backend := openai |}
  /\ (forall text,
        openai log prompt (stage_constraints Drafting) = BackendText text ->
        ResearchAgent._get_llm_response drafter prompt log =
          (Returned (Some text), log ++ [call_of Drafting Secondary prompt]))
  /\ (exists calls,
        snd (ResearchAgent._get_llm_response drafter prompt log) = log ++ calls
        /\ Forall (fun c => call_provider c = Secondary) calls).
Proof.
  intros Hg Ho drafter. subst drafter.
  unfold ResearchAgent.__init__, GeminiClient_init, OpenAIClient_init.
  rewrite Hg, Ho. cbn [init_or_None].
  split; [reflexivity|]. split; [reflexivity|]. split.
  - intros text Ht. rewrite ResearchAgent_resolve.
    cbn [ResearchAgent.primary_client ResearchAgent.secondary_client].
    rewrite (resolve_secondary_text Drafting None _ prompt log text);
      [reflexivity | exact I |].
    unfold secondary_answer, log_after_primary. cbn [fmap option_fmap option_map openai_backend].
    rewrite Ht. reflexivity.
  - rewrite ResearchAgent_resolve.
    cbn [ResearchAgent.primary_client ResearchAgent.secondary_client].
    destruct (resolve_calls_uniform Drafting None (Some {| openai_backend := openai |})
                prompt log) as (calls & H1 & _ & Hp & _).
    exists calls. split; [exact H1|].
    apply Forall_forall. intros c Hc.
    destruct (call_provider c) eqn:E; [|reflexivity].
    destruct (Hp c Hc E) as [? ?]. discriminate.
Qed.

Lemma openai_only_credential_witness :
  ResearchAgent._get_llm_response
    (ResearchAgent.__init__ {| GOOGLE_API_KEY := None; OPENAI_API_KEY := Some "sk-1" |}
       (always_fail "unused") (always_text "X is 42."))
    "q" [] = (Returned (Some "X is 42."), [call_of Drafting Secondary "q"]).
Proof.
  destruct (openai_only_credential
              {| GOOGLE_API_KEY := None; OPENAI_API_KEY := Some "sk-1" |}
              (always_fail "unused") (always_text "X is 42.") "q" []
              eq_refl eq_refl) as (_ & _ & H & _).
  apply (H "X is 42."). reflexivity.
Defined.

End Credentials.

(** ** The Gemini client *)

Section Gemini.
Import PyStr.

Lemma gemini_extract_no_candidates response :
  has_no_candidates response -> gemini_extract response = "".
Proof. unfold gemini_extract. intros [-> | ->]; reflexivity. Qed.

(** X14: a Gemini response without candidates is not a failure: [generate]
    returns the empty string, so in every stage the Primary's empty text is
    the result and the Secondary is not called.  On that response the
    relevance check returns NO_MATCH, [ResearchAgent.generate] returns the
    sentinel draft, and [VerificationAgent.check] returns the rendering of
    the report that says the response was empty, each after the single
    Primary call. *)
Theorem gemini_empty_response_no_fallback
    (sdk : GeminiSDK) (s : option OpenAIClient) (response : GeminiResponse)
    (st : Stage) (prompt : string) (log : Log) :
  sdk log prompt (stage_constraints st) = inl response ->
  has_no_candidates response ->
  resolve st (Some {| gemini_backend := gemini_backend_of sdk |}) s prompt log =
    (Returned (Some ""), log ++ [call_of st Primary prompt])
  /\ (forall question retriever k,
        st = Relevance ->
        retriever question <> [] ->
        prompt = RelevanceChecker.prompt_of question
                   (RelevanceChecker.document_content_of (retriever question) k) ->
        RelevanceChecker.check
          {| RelevanceChecker.primary_client :=
               Some {| gemini_backend := gemini_backend_of sdk |};
             RelevanceChecker.secondary_client := s |}
          question retriever k log =
          (Returned "NO_MATCH", log ++ [call_of Relevance Primary prompt]))
  /\ (forall question documents,
        st = Drafting ->
        prompt = ResearchAgent.generate_prompt question
                   (join (nl +:+ nl) (page_content <$> documents)) ->
        ResearchAgent.generate
          {| ResearchAgent.primary_client :=
               Some {| gemini_backend := gemini_backend_of sdk |};
             ResearchAgent.secondary_client := s |}
          question documents log =
          (Returned {| ResearchAgent.draft_answer := "I cannot answer this question.";
                       ResearchAgent.context_used :=
                         join (nl +:+ nl) (page_content <$> documents) |},
           log ++ [call_of Drafting Primary prompt]))
  /\ (forall answer documents,
        st = Verification ->
        prompt = VerificationAgent.generate_prompt answer
                   (join (nl +:+ nl) (page_content <$> documents)) ->
        VerificationAgent.check
          {| VerificationAgent.primary_client :=
               Some {| gemini_backend := gemini_backend_of sdk |};
             VerificationAgent.secondary_client := s |}
          answer documents log =
          (Returned
             {| VerificationAgent.verification_report :=
                  VerificationAgent.format_verification_report
                    (VerificationAgent.default_report "Empty response from the model.");
                VerificationAgent.context_used :=
                  join (nl +:+ nl) (page_content <$> documents) |},
           log ++ [call_of Verification Primary prompt])).
Proof.
  intros Hsdk Hno.
  assert (H : resolve st (Some {| gemini_backend := gemini_backend_of sdk |}) s prompt log =
              (Returned (Some ""), log ++ [call_of st Primary prompt])).
  { apply resolve_primary_text. unfold primary_answer, gemini_backend_of.
    cbn [fmap option_fmap option_map gemini_backend].
    rewrite Hsdk, (gemini_extract_no_candidates _ Hno). reflexivity. }
  split; [exact H|]. split; [|split].
  - intros question retriever k -> Hne E.
    change "NO_MATCH" with (RelevanceChecker.classify "").
    apply check_returned; [exact Hne|].
    rewrite RelevanceChecker_resolve, <- E. exact H.
  - intros question documents -> E.
    unfold ResearchAgent.generate. unfold_M.
    rewrite ResearchAgent_resolve, <- E.
    cbn [ResearchAgent.primary_client ResearchAgent.secondary_client].
    rewrite H. reflexivity.
  - intros answer documents -> E.
    unfold VerificationAgent.check. unfold_M.
    rewrite VerificationAgent_resolve, <- E.
    cbn [VerificationAgent.primary_client VerificationAgent.secondary_client].
    rewrite H. reflexivity.
Qed.

Lemma gemini_empty_response_no_fallback_witness :
  ResearchAgent.generate
    {| ResearchAgent.primary_client :=
         Some {| gemini_backend :=
                   gemini_backend_of
                     (fun _ _ _ => inl {| candidates := Some []; response_text := None |}) |};
       ResearchAgent.secondary_client := Some {| openai_backend := always_text "X is 42." |} |}
    "What is X?" one_doc [] =
  (Returned {| ResearchAgent.draft_answer := "I cannot answer this question.";
               ResearchAgent.context_used := join (nl +:+ nl) (page_content <$> one_doc) |},
   [call_of Drafting Primary
      (ResearchAgent.generate_prompt "What is X?"
         (join (nl +:+ nl) (page_content <$> one_doc)))]).
Proof.
  destruct (gemini_empty_response_no_fallback
              (fun _ _ _ => inl {| candidates := Some []; response_text := None |})
              (Some {| openai_backend := always_text "X is 42." |})
              {| candidates := Some []; response_text := None |} Drafting
              (ResearchAgent.generate_prompt "What is X?"
                 (join (nl +:+ nl) (page_content <$> one_doc))) []
              eq_refl (or_intror eq_refl)) as (_ & _ & H & _).
  apply (H "What is X?" one_doc); reflexivity.
Defined.

(** X15: a truncated completion is kept: when the first part of the first
    candidate has a text, [generate] returns exactly that text, whatever
    the finish reason, the other candidates and parts, and the standard
    accessor are; the drafting agent then returns it trimmed. *)
Theorem gemini_partial_text_returned
    (sdk : GeminiSDK) (self : ResearchAgent.t) (question : string)
    (documents : list Document) (log : Log)
    (reason : Z) (text : string) (parts : list GeminiPart)
    (others : list GeminiCandidate) (accessor : option string) :
  let prompt :=
    ResearchAgent.generate_prompt question
      (join (nl +:+ nl) (page_content <$> documents)) in
  let response :=
    {| candidates :=
         Some ({| candidate_parts := Some ({| part_text := Some text |} :: parts);
                  finish_reason := reason |} :: others);
       response_text := accessor |} in
  ResearchAgent.primary_client self = Some {| gemini_backend := gemini_backend_of sdk |} ->
  sdk log prompt (stage_constraints Drafting) = inl response ->
  text <> "" ->
  gemini_extract response = text
  /\ exists log',
       ResearchAgent.generate self question documents log =
         (Returned {| ResearchAgent.draft_answer := strip text;
                      ResearchAgent.context_used :=
                        join (nl +:+ nl) (page_content <$> documents) |}, log').
Proof.
  intros prompt response Hp Hsdk Hne. split; [reflexivity|].
  assert (H : ResearchAgent._get_llm_response self prompt log =
              (Returned (Some text), log ++ [call_of Drafting Primary prompt])).
  { rewrite ResearchAgent_resolve, Hp. apply resolve_primary_text.
    unfold primary_answer, gemini_backend_of.
    cbn [fmap option_fmap option_map gemini_backend]. rewrite Hsdk. reflexivity. }
  eexists. unfold ResearchAgent.generate. fold prompt. unfold_M. rewrite H.
  destruct text; [congruence|]. reflexivity.
Qed.

Lemma gemini_partial_text_returned_witness :
  exists log',
    ResearchAgent.generate
      {| ResearchAgent.primary_client :=
           Some {| gemini_backend :=
                     gemini_backend_of
                       (fun _ _ _ =>
                          inl {| candidates :=
                                   Some [ {| candidate_parts :=
                                               Some [ {| part_text := Some "X is 4" |} ];
                                             finish_reason := 2 |} ];
                                 response_text := None |}) |};
         ResearchAgent.secondary_client := None |}
      "What is X?" one_doc [] =
      (Returned {| ResearchAgent.draft_answer := strip "X is 4";
                   ResearchAgent.context_used :=
                     join (nl +:+ nl) (page_content <$> one_doc) |}, log').
Proof.
  apply (gemini_partial_text_returned
           (fun _ _ _ =>
              inl {| candidates :=
                       Some [ {| candidate_parts := Some [ {| part_text := Some "X is 4" |} ];
                                 finish_reason := 2 |} ];
                     response_text := None |})
           {| ResearchAgent.primary_client :=
                Some {| gemini_backend :=
                          gemini_backend_of
                            (fun _ _ _ =>
                               inl {| candidates :=
                                        Some [ {| candidate_parts :=
                                                    Some [ {| part_text := Some "X is 4" |} ];
                                                  finish_reason := 2 |} ];
                                      response_text := None |}) |};
              ResearchAgent.secondary_client := None |}
           "What is X?" one_doc [] 2 "X is 4" [] [] None).
  - reflexivity.
  - reflexivity.
  - discriminate.
Defined.

End Gemini.

(** ** The retriever builder and the handlers of the interface *)

Section DocChatProperties.
Import PyStr.
Variable ext : DocChat.Externals.

Ltac unfold_App :=
  unfold DocChat.catch, DocChat.call, DocChat.throw, DocChat.get_session,
    DocChat.update_session, mbind, DocChat.App_bind, DocChat.and_then, mret,
    DocChat.App_ret, DocChat.pure in *.

(** What [build_hybrid_retriever] does for a non-empty list of chunks. *)
Lemma build_nonempty settings self d ds w :
  DocChat.build_hybrid_retriever ext settings self (d :: ds) w =
  match DocChat.Chroma_from_documents ext (d :: ds) (DocChat.embeddings self)
          (DocChat.CHROMA_DB_PATH settings) with
  | DocChat.Err msg =>
      (DocChat.Err msg,
       {| DocChat.session := DocChat.session w;
          DocChat.events := DocChat.events w ++ [DocChat.ChromaBuilt (d :: ds)] |})
  | DocChat.Ok store =>
      match DocChat.BM25Retriever_from_documents ext (d :: ds) with
      | DocChat.Err msg =>
          (DocChat.Err msg,
           {| DocChat.session := DocChat.session w;
              DocChat.events :=
                (DocChat.events w ++ [DocChat.ChromaBuilt (d :: ds)])
                ++ [DocChat.BM25Built (d :: ds)] |})
      | DocChat.Ok index =>
          (DocChat.Ok
             (Some (DocChat.EnsembleRetriever
                      [DocChat.BM25Retriever index;
                       DocChat.VectorStoreRetriever store (DocChat.VECTOR_SEARCH_K settings)]
                      (DocChat.HYBRID_RETRIEVER_WEIGHTS settings))),
           {| DocChat.session := DocChat.session w;
              DocChat.events :=
                (DocChat.events w ++ [DocChat.ChromaBuilt (d :: ds)])
                ++ [DocChat.BM25Built (d :: ds)] |})
      end
  end.
Proof.
  unfold DocChat.build_hybrid_retriever. unfold_App.
  destruct (DocChat.Chroma_from_documents ext _ _ _); [|reflexivity].
  cbn [DocChat.session DocChat.events].
  destruct (DocChat.BM25Retriever_from_documents ext _); reflexivity.
Qed.

(** X16: without chunks the builder returns [None] and touches neither
    library, and [None] is returned in no other case: for a non-empty list
    a successful build gives a retriever. The session is never changed. *)
Theorem build_none_iff_no_docs
    (settings : DocChat.RetrievalSettings) (self : DocChat.RetrieverBuilder)
    (docs : list Document) (w : DocChat.World ext) :
  (docs = [] ->
   DocChat.build_hybrid_retriever ext settings self docs w = (DocChat.Ok None, w))
  /\ (fst (DocChat.build_hybrid_retriever ext settings self docs w) = DocChat.Ok None
      -> docs = [])
  /\ DocChat.session (snd (DocChat.build_hybrid_retriever ext settings self docs w))
     = DocChat.session w.
Proof.
  destruct docs as [|d ds].
  - repeat split; destruct w; reflexivity.
  - rewrite build_nonempty. split; [discriminate|].
    destruct (DocChat.Chroma_from_documents ext _ _ _);
      [destruct (DocChat.BM25Retriever_from_documents ext _)|];
      split; try reflexivity; cbn; discriminate.
Qed.

(** X17: for a non-empty list of chunks the builder calls Chroma first and
    BM25 second; a failure of either is re-raised with its message, and
    BM25 is not called after a failure of Chroma; when both succeed the
    result is the ensemble of exactly the keyword retriever and the vector
    retriever, in this order, with the configured k and weights. *)
Theorem build_hybrid_shape
    (settings : DocChat.RetrievalSettings) (self : DocChat.RetrieverBuilder)
    (docs : list Document) (w : DocChat.World ext) :
  docs <> [] ->
  let result := DocChat.build_hybrid_retriever ext settings self docs w in
  let chroma :=
    DocChat.Chroma_from_documents ext docs (DocChat.embeddings self)
      (DocChat.CHROMA_DB_PATH settings) in
  let bm25 := DocChat.BM25Retriever_from_documents ext docs in
  (forall msg, chroma = DocChat.Err msg ->
     fst result = DocChat.Err msg
     /\ DocChat.events (snd result) = DocChat.events w ++ [DocChat.ChromaBuilt docs])
  /\ (forall store msg, chroma = DocChat.Ok store -> bm25 = DocChat.Err msg ->
        fst result = DocChat.Err msg
        /\ DocChat.events (snd result) =
             DocChat.events w ++ [DocChat.ChromaBuilt docs; DocChat.BM25Built docs])
  /\ (forall store index, chroma = DocChat.Ok store -> bm25 = DocChat.Ok index ->
        fst result =
          DocChat.Ok
            (Some (DocChat.EnsembleRetriever
                     [DocChat.BM25Retriever index;
                      DocChat.VectorStoreRetriever store (DocChat.VECTOR_SEARCH_K settings)]
                     (DocChat.HYBRID_RETRIEVER_WEIGHTS settings)))
        /\ DocChat.events (snd result) =
             DocChat.events w ++ [DocChat.ChromaBuilt docs; DocChat.BM25Built docs]).
Proof.
  intros Hne result chroma bm25. subst result chroma bm25.
  destruct docs as [|d ds]; [congruence|]. rewrite build_nonempty.
  split; [|split].
  - intros msg ->. split; reflexivity.
  - intros store msg -> ->. split; [reflexivity|]. cbn. rewrite <- app_assoc. reflexivity.
  - intros store index -> ->. split; [reflexivity|]. cbn. rewrite <- app_assoc. reflexivity.
Qed.

(** X18: [load_example] returns only absolute paths that exist, at most as
    many as the example lists, together with the example's question; for a
    missing, empty or unknown key it returns no file and an empty
    question. *)
Theorem load_example_paths (example_key : option string) :
  Forall (fun p => startswith p "/" = true /\ DocChat.path_exists ext p = true)
    (fst (DocChat.load_example ext example_key))
  /\ (forall key data,
        example_key = Some key -> key <> "" -> DocChat.EXAMPLES !! key = Some data ->
        snd (DocChat.load_example ext example_key) = DocChat.question data
        /\ (length (fst (DocChat.load_example ext example_key))
             <= length (DocChat.file_paths data))%nat)
  /\ (example_key = None \/ example_key = Some ""
      \/ (exists key, example_key = Some key /\ DocChat.EXAMPLES !! key = None) ->
      DocChat.load_example ext example_key = ([], "")).
Proof.
  assert (Hpaths : forall paths,
            Forall (fun p => startswith p "/" = true /\ DocChat.path_exists ext p = true)
              (DocChat.load_paths ext paths)
            /\ (length (DocChat.load_paths ext paths) <= length paths)%nat).
  { induction paths as [|path rest [IH1 IH2]]; [split; [constructor | reflexivity]|].
    cbn [DocChat.load_paths length].
    destruct (DocChat.path_exists ext _) eqn:E; [|split; [exact IH1 | lia]].
    split; [|cbn [length]; lia].
    constructor; [|exact IH1]. split; [|exact E].
    destruct (startswith path "/") eqn:Hs; [exact Hs | reflexivity]. }
  split; [|split].
  - unfold DocChat.load_example.
    destruct example_key as [key|]; [|constructor].
    destruct (truthy key); [|constructor].
    destruct (DocChat.EXAMPLES !! key); [apply Hpaths | constructor].
  - intros key data -> Hne Hd. unfold DocChat.load_example.
    destruct key; [congruence|]. cbn [truthy]. rewrite Hd.
    split; [reflexivity | apply Hpaths].
  - intros [-> | [-> | (key & -> & Hk)]]; [reflexivity | reflexivity |].
    unfold DocChat.load_example. rewrite Hk. destruct (truthy key); reflexivity.
Qed.

Lemma hash_files_world files : forall hashes w,
  DocChat.session (snd (DocChat.hash_files ext hashes files w)) = DocChat.session w.
Proof.
  induction files as [|f files IH]; intros hashes w; [reflexivity|].
  cbn [DocChat.hash_files]. unfold_App.
  destruct (DocChat.read_file ext (DocChat.name f)); [|reflexivity].
  rewrite IH. reflexivity.
Qed.

Lemma hash_files_readable files : forall hashes w,
  Forall (readable ext) files ->
  DocChat.hash_files ext hashes files w =
  (DocChat.Ok (hashes ∪ list_to_set (digest_of ext <$> files)),
   {| DocChat.session := DocChat.session w;
      DocChat.events :=
        DocChat.events w ++ ((fun f => DocChat.FileRead (DocChat.name f)) <$> files) |}).
Proof.
  induction files as [|f files IH]; intros hashes w HF.
  - cbn. rewrite app_nil_r, (right_id_L ∅ (∪)). destruct w; reflexivity.
  - inversion HF as [|? ? [content Hc] HF']; subst.
    cbn [DocChat.hash_files]. unfold_App. rewrite Hc.
    rewrite IH by exact HF'. cbn [DocChat.session DocChat.events fmap list_fmap].
    unfold digest_of at 2. rewrite Hc.
    rewrite <- app_assoc. cbn [app].
    do 2 f_equal. cbn [list_to_set foldr]. symmetry. apply (assoc_L (∪)).
Qed.

(** X19: the set of digests depends on which files are uploaded, not on
    their order or multiplicity: two lists of readable files with the same
    members give the same set, the set of the digests of their contents. *)
Theorem file_hashes_order_free
    (files1 files2 : list DocChat.UploadedFile) (w1 w2 : DocChat.World ext) :
  Forall (readable ext) files1 ->
  (forall f, f ∈ files1 <-> f ∈ files2) ->
  fst (DocChat._get_file_hashes ext files1 w1) =
    DocChat.Ok (list_to_set (digest_of ext <$> files1))
  /\ fst (DocChat._get_file_hashes ext files1 w1)
     = fst (DocChat._get_file_hashes ext files2 w2).
Proof.
  intros HF Heq.
  assert (HF2 : Forall (readable ext) files2).
  { rewrite Forall_forall in *. intros f Hf. apply HF, Heq, Hf. }
  unfold DocChat._get_file_hashes. rewrite !hash_files_readable by assumption.
  cbn [fst]. rewrite !(left_id_L ∅ (∪)). split; [reflexivity|].
  f_equal. apply set_eq. intros x. rewrite !elem_of_list_to_set, !list_elem_of_fmap.
  split; intros (f & -> & Hf); exists f; (split; [reflexivity | apply Heq, Hf]).
Qed.

Section ProcessQuestion.
Variables (settings : DocChat.RetrievalSettings) (builder : DocChat.RetrieverBuilder).
Variable workflow : DocChat.Workflow ext.
Variables (question_text : string) (uploaded_files : list DocChat.UploadedFile).
Variables (state : DocChat.SessionState ext) (log : list (DocChat.Event ext)).

Local Abbreviation run :=
  (DocChat.process_question ext settings builder workflow question_text
     uploaded_files state log).

Local Abbreviation current_hashes := (current_hashes ext uploaded_files).
Local Abbreviation reads_of := (reads ext).
Local Abbreviation reads := (reads ext uploaded_files).

(** X20: a question that is empty or blank, and a request without files,
    are rejected before anything is read, processed or asked: the reply is
    the error text, the session and the log of calls are unchanged. *)
Theorem invalid_request_rejected :
  (truthy (strip question_text) = false ->
   run = ((error_reply (DocChat.cross_mark +:+ " Question cannot be empty"), "", state),
          log))
  /\ (truthy (strip question_text) = true -> uploaded_files = [] ->
      run = ((error_reply (DocChat.cross_mark +:+ " No documents uploaded"), "", state),
             log)).
Proof.
  split.
  - intros H. unfold DocChat.process_question, DocChat.process_question_body.
    rewrite H. reflexivity.
  - intros H ->. unfold DocChat.process_question, DocChat.process_question_body.
    rewrite H. reflexivity.
Qed.

(** The request after validation and hashing of readable files. *)
Lemma process_question_hashed :
  truthy (strip question_text) = true ->
  uploaded_files <> [] ->
  Forall (readable ext) uploaded_files ->
  run =
  (let w1 := {| DocChat.session := state; DocChat.events := log ++ reads |} in
   let stale :=
     bool_decide (DocChat.retriever state = None)
     || negb (bool_decide (current_hashes = DocChat.file_hashes state)) in
   let '(r, w2) :=
     (if stale then
        match DocChat.processor_process ext uploaded_files with
        | DocChat.Err msg =>
            (DocChat.Err msg,
             {| DocChat.session := state;
                DocChat.events := (log ++ reads) ++ [DocChat.Processed uploaded_files] |})
        | DocChat.Ok [] =>
            (DocChat.Err "No readable text found.",
             {| DocChat.session := state;
                DocChat.events := (log ++ reads) ++ [DocChat.Processed uploaded_files] |})
        | DocChat.Ok chunks =>
            match DocChat.build_hybrid_retriever ext settings builder chunks
                    {| DocChat.session := state;
                       DocChat.events :=
                         (log ++ reads) ++ [DocChat.Processed uploaded_files] |} with
            | (DocChat.Ok built, w) =>
                (DocChat.Ok tt,
                 {| DocChat.session :=
                      {| DocChat.file_hashes := current_hashes;
                         DocChat.retriever := built |};
                    DocChat.events := DocChat.events w |})
            | (DocChat.Err msg, w) => (DocChat.Err msg, w)
            end
        end
      else (DocChat.Ok tt, w1)) in
   match r with
   | DocChat.Err msg => ((error_reply msg, "", DocChat.session w2), DocChat.events w2)
   | DocChat.Ok _ =>
       (reply_of (workflow question_text (DocChat.retriever (DocChat.session w2)))
          (DocChat.session w2),
        DocChat.events w2
        ++ [DocChat.PipelineRun question_text (DocChat.retriever (DocChat.session w2))])
   end).
Proof.
  intros Hq Hf HF.
  unfold DocChat.process_question, DocChat.process_question_body.
  rewrite Hq. cbn [negb].
  destruct uploaded_files as [|f fs] eqn:Ef; [congruence|]. rewrite <- Ef in *.
  unfold DocChat._get_file_hashes.
  unfold mbind, DocChat.App_bind, DocChat.and_then at 1.
  rewrite hash_files_readable by exact HF.
  cbn [DocChat.session DocChat.events]. rewrite (left_id_L ∅ (∪)).
  fold current_hashes. fold reads.
  unfold_App. cbn [DocChat.session DocChat.events].
  destruct (bool_decide (DocChat.retriever state = None)
            || negb (bool_decide (current_hashes = DocChat.file_hashes state))).
  - destruct (DocChat.processor_process ext uploaded_files) as [[|d ds]|msg];
      [reflexivity| |reflexivity].
    destruct (DocChat.build_hybrid_retriever ext settings builder (d :: ds) _)
      as [[built|msg] w]; [|reflexivity].
    cbn [DocChat.session DocChat.events DocChat.retriever].
    destruct (workflow question_text built); reflexivity.
  - cbn [DocChat.session DocChat.events].
    destruct (workflow question_text (DocChat.retriever state)); reflexivity.
Qed.

Lemma stale_true :
  stale ext state uploaded_files ->
  bool_decide (DocChat.retriever state = None)
  || negb (bool_decide (current_hashes = DocChat.file_hashes state)) = true.
Proof.
  intros [H|H].
  - rewrite bool_decide_eq_true_2 by exact H. reflexivity.
  - rewrite (bool_decide_eq_false_2 _ H). apply orb_true_r.
Qed.

(** X21: when the session already holds a retriever built for the same set
    of files, nothing is processed or indexed again: after reading the
    files for their digests, the pipeline is run with the retriever of the
    session, and the session is returned as it was. *)
Theorem cached_retriever_reused (r : DocChat.Retriever ext) :
  truthy (strip question_text) = true ->
  uploaded_files <> [] ->
  Forall (readable ext) uploaded_files ->
  DocChat.retriever state = Some r ->
  DocChat.file_hashes state = current_hashes ->
  run = (reply_of (workflow question_text (Some r)) state,
         log ++ reads ++ [DocChat.PipelineRun question_text (Some r)]).
Proof.
  intros Hq Hf HF Hr Hh. rewrite process_question_hashed by assumption.
  rewrite Hr, <- Hh.
  rewrite (bool_decide_eq_false_2 (Some r = None)) by discriminate.
  rewrite bool_decide_eq_true_2 by reflexivity.
  cbn [orb negb DocChat.session DocChat.events]. rewrite Hr, <- app_assoc. reflexivity.
Qed.

(** X22: when the session is stale (no retriever yet, or another set of
    files) and processing and indexing succeed, the files are processed
    once, the hybrid retriever is built from the chunks, the session
    records the new digests and retriever, and the pipeline runs with the
    new retriever; the updated session is returned even if the pipeline
    then fails. *)
Theorem stale_session_rebuilt
    (chunks : list Document) (store : DocChat.VectorStore ext)
    (index : DocChat.BM25Index ext) :
  truthy (strip question_text) = true ->
  uploaded_files <> [] ->
  Forall (readable ext) uploaded_files ->
  stale ext state uploaded_files ->
  DocChat.processor_process ext uploaded_files = DocChat.Ok chunks ->
  chunks <> [] ->
  DocChat.Chroma_from_documents ext chunks (DocChat.embeddings builder)
    (DocChat.CHROMA_DB_PATH settings) = DocChat.Ok store ->
  DocChat.BM25Retriever_from_documents ext chunks = DocChat.Ok index ->
  let built :=
    DocChat.EnsembleRetriever
      [DocChat.BM25Retriever index;
       DocChat.VectorStoreRetriever store (DocChat.VECTOR_SEARCH_K settings)]
      (DocChat.HYBRID_RETRIEVER_WEIGHTS settings) in
  let state' :=
    {| DocChat.file_hashes := current_hashes; DocChat.retriever := Some built |} in
  run = (reply_of (workflow question_text (Some built)) state',
         log ++ reads
         ++ [DocChat.Processed uploaded_files; DocChat.ChromaBuilt chunks;
             DocChat.BM25Built chunks; DocChat.PipelineRun question_text (Some built)]).
Proof.
  intros Hq Hf HF Hs Hp Hc Hchroma Hbm25 built state'.
  rewrite process_question_hashed by assumption.
  rewrite (stale_true Hs), Hp. cbv zeta.
  destruct chunks as [|d ds]; [congruence|].
  rewrite build_nonempty, Hchroma, Hbm25.
  cbn [DocChat.session DocChat.events DocChat.retriever].
  fold built. fold state'. f_equal.
  rewrite <- !app_assoc. reflexivity.
Qed.

(** X23: when the session is stale and the rebuild fails (the processor
    raises or finds no text, or the vector store cannot be built), the
    reply is the error text, the pipeline is not run, and the session keeps
    its old digests and retriever. *)
Theorem failed_rebuild_keeps_session :
  truthy (strip question_text) = true ->
  uploaded_files <> [] ->
  Forall (readable ext) uploaded_files ->
  stale ext state uploaded_files ->
  (DocChat.processor_process ext uploaded_files = DocChat.Ok [] ->
   run = ((error_reply "No readable text found.", "", state),
          log ++ reads ++ [DocChat.Processed uploaded_files]))
  /\ (forall msg,
        DocChat.processor_process ext uploaded_files = DocChat.Err msg ->
        run = ((error_reply msg, "", state),
               log ++ reads ++ [DocChat.Processed uploaded_files]))
  /\ (forall chunks msg,
        DocChat.processor_process ext uploaded_files = DocChat.Ok chunks ->
        chunks <> [] ->
        DocChat.Chroma_from_documents ext chunks (DocChat.embeddings builder)
          (DocChat.CHROMA_DB_PATH settings) = DocChat.Err msg ->
        run = ((error_reply msg, "", state),
               log ++ reads
               ++ [DocChat.Processed uploaded_files; DocChat.ChromaBuilt chunks])).
Proof.
  intros Hq Hf HF Hs. rewrite process_question_hashed by assumption.
  rewrite (stale_true Hs). cbv zeta. split; [|split].
  - intros ->. cbn [DocChat.session DocChat.events]. rewrite <- app_assoc. reflexivity.
  - intros msg ->. cbn [DocChat.session DocChat.events]. rewrite <- app_assoc. reflexivity.
  - intros chunks msg -> Hc Hchroma. destruct chunks as [|d ds]; [congruence|].
    rewrite build_nonempty, Hchroma. cbn [DocChat.session DocChat.events].
    rewrite <- !app_assoc. reflexivity.
Qed.

Lemma hash_files_events files : forall hashes (w : DocChat.World ext),
  exists evs,
    DocChat.events (snd (DocChat.hash_files ext hashes files w)) = DocChat.events w ++ evs
    /\ Forall (fun e => exists p, e = DocChat.FileRead p) evs.
Proof.
  induction files as [|f files IH]; intros hashes w.
  - exists []. split; [symmetry; apply app_nil_r | constructor].
  - cbn [DocChat.hash_files]. unfold_App.
    destruct (DocChat.read_file ext (DocChat.name f)).
    + destruct (IH (hashes ∪ {[DocChat.sha256_hexdigest ext a]})
                  {| DocChat.session := DocChat.session w;
                     DocChat.events := DocChat.events w ++ [DocChat.FileRead (DocChat.name f)] |})
        as (evs & E & HF).
      exists (DocChat.FileRead (DocChat.name f) :: evs).
      rewrite E. cbn [DocChat.events]. rewrite <- app_assoc.
      split; [reflexivity|]. constructor; [eauto | exact HF].
    + exists [DocChat.FileRead (DocChat.name f)].
      split; [reflexivity|]. repeat constructor. eauto.
Qed.

Ltac pipeline_leaf Hev HFev Hnone :=
  match goal with
  | H : _ ∈ _ |- _ =>
      cbn [DocChat.events DocChat.session DocChat.retriever] in H;
      rewrite ?Hev in H;
      repeat (rewrite ?elem_of_app, ?elem_of_cons, ?elem_of_nil in H);
      destruct_or!;
      try (left; assumption);
      try discriminate;
      try contradiction;
      try (match goal with
           | Hin : _ ∈ _ |- _ =>
               rewrite Forall_forall in HFev;
               destruct (HFev _ Hin) as [? ?]; discriminate
           end);
      try (match goal with
           | Heq : DocChat.PipelineRun _ _ = DocChat.PipelineRun _ _ |- _ =>
               injection Heq as -> ->; right; split; [reflexivity|];
               first [discriminate | exact Hnone]
           end)
  end.

Lemma body_trace r w :
  DocChat.process_question_body ext settings builder workflow question_text
    uploaded_files {| DocChat.session := state; DocChat.events := log |} = (r, w) ->
  (forall q used,
     DocChat.PipelineRun q used ∈ DocChat.events w ->
     DocChat.PipelineRun q used ∈ log \/ (q = question_text /\ used <> None))
  /\ (DocChat.session w = state
      \/ exists hashes built,
           DocChat.session w =
             {| DocChat.file_hashes := hashes; DocChat.retriever := Some built |}).
Proof.
  unfold DocChat.process_question_body.
  destruct (truthy (strip question_text)); cbn [negb].
  2:{ intros Hb. injection Hb as <- <-.
      split; [intros q used H; left; exact H | left; reflexivity]. }
  destruct uploaded_files as [|f fs] eqn:Ef.
  { intros Hb. injection Hb as <- <-.
    split; [intros q used H; left; exact H | left; reflexivity]. }
  rewrite <- Ef. unfold DocChat._get_file_hashes.
  unfold mbind, DocChat.App_bind. unfold DocChat.and_then at 1.
  pose proof (hash_files_world uploaded_files ∅
                {| DocChat.session := state; DocChat.events := log |}) as Hses.
  destruct (hash_files_events uploaded_files ∅
              {| DocChat.session := state; DocChat.events := log |}) as (evs & Hev & HFev).
  destruct (DocChat.hash_files ext ∅ uploaded_files _) as [[current|msg] w1];
    cbn [snd DocChat.session DocChat.events] in Hses, Hev.
  2:{ intros Hb. injection Hb as <- <-.
      split; [|left; first [exact Hses | reflexivity]].
      intros q used H. pipeline_leaf Hev HFev I. }
  unfold_App. rewrite Hses.
  destruct (bool_decide (DocChat.retriever state = None)) eqn:Hnone; cbn [orb].
  - destruct (DocChat.processor_process ext uploaded_files) as [[|d ds]|msg].
    + intros Hb. injection Hb as <- <-. cbn [DocChat.session].
      split; [|left; first [exact Hses | reflexivity]]. intros q used H. pipeline_leaf Hev HFev I.
    + rewrite build_nonempty.
      destruct (DocChat.Chroma_from_documents ext _ _ _);
        [destruct (DocChat.BM25Retriever_from_documents ext _)|];
        cbn [snd fst DocChat.session DocChat.events DocChat.retriever];
        intros Hb; injection Hb as <- <-; cbn [DocChat.session];
        (split; [intros q used H; pipeline_leaf Hev HFev I
                | first [left; first [exact Hses | reflexivity] | right; eauto]]).
    + intros Hb. injection Hb as <- <-. cbn [DocChat.session].
      split; [|left; first [exact Hses | reflexivity]]. intros q used H. pipeline_leaf Hev HFev I.
  - apply bool_decide_eq_false_1 in Hnone.
    destruct (negb (bool_decide (current = DocChat.file_hashes state))).
    + destruct (DocChat.processor_process ext uploaded_files) as [[|d ds]|msg].
      * intros Hb. injection Hb as <- <-. cbn [DocChat.session].
        split; [|left; first [exact Hses | reflexivity]]. intros q used H. pipeline_leaf Hev HFev I.
      * rewrite build_nonempty.
        destruct (DocChat.Chroma_from_documents ext _ _ _);
          [destruct (DocChat.BM25Retriever_from_documents ext _)|];
          cbn [snd fst DocChat.session DocChat.events DocChat.retriever];
          intros Hb; injection Hb as <- <-; cbn [DocChat.session];
          (split; [intros q used H; pipeline_leaf Hev HFev I
                  | first [left; first [exact Hses | reflexivity] | right; eauto]]).
      * intros Hb. injection Hb as <- <-. cbn [DocChat.session].
        split; [|left; first [exact Hses | reflexivity]]. intros q used H. pipeline_leaf Hev HFev I.
    + cbn [DocChat.session DocChat.events]. rewrite Hses.
      intros Hb. injection Hb as <- <-. cbn [DocChat.session].
      split; [|left; first [exact Hses | reflexivity]].
      intros q used H. pipeline_leaf Hev HFev Hnone.
Qed.

(** X24: whatever the request and the collaborators do, [process_question]
    runs the pipeline only with a retriever, never with [None], and only
    for the question asked; and the session it returns is the one it was
    given or one that holds a freshly built retriever. *)
Theorem pipeline_gets_a_retriever :
  let result :=
    DocChat.process_question ext settings builder workflow question_text
      uploaded_files state log in
  (forall q used,
     DocChat.PipelineRun q used ∈ snd result ->
     DocChat.PipelineRun q used ∈ log \/ (q = question_text /\ used <> None))
  /\ (snd (fst result) = state
      \/ exists hashes built,
           snd (fst result) =
             {| DocChat.file_hashes := hashes; DocChat.retriever := Some built |}).
Proof.
  cbv zeta. unfold DocChat.process_question.
  destruct (DocChat.process_question_body ext settings builder workflow question_text
              uploaded_files {| DocChat.session := state; DocChat.events := log |})
    as [r w] eqn:Hb.
  destruct (body_trace r w Hb) as [H1 H2].
  destruct r; cbn [fst snd]; split; assumption.
Qed.

Lemma hash_files_unreadable ok_files : forall hashes (w : DocChat.World ext) bad rest msg,
  Forall (readable ext) ok_files ->
  DocChat.read_file ext (DocChat.name bad) = DocChat.Err msg ->
  DocChat.hash_files ext hashes (ok_files ++ bad :: rest) w =
  (DocChat.Err msg,
   {| DocChat.session := DocChat.session w;
      DocChat.events :=
        DocChat.events w ++ reads_of ok_files
        ++ [DocChat.FileRead (DocChat.name bad)] |}).
Proof.
  induction ok_files as [|f files IH]; intros hashes w bad rest msg HF Hbad.
  - cbn [app DocChat.hash_files]. unfold_App. rewrite Hbad. reflexivity.
  - inversion HF as [|? ? [content Hc] HF']; subst.
    cbn [app DocChat.hash_files]. unfold_App. rewrite Hc.
    rewrite (IH _ _ bad rest msg HF' Hbad).
    cbn [DocChat.session DocChat.events]. unfold reads_of, reads.
    cbn [fmap list_fmap]. rewrite <- !app_assoc. reflexivity.
Qed.

(** X25: when one of the uploaded files cannot be read, the reply is the
    text of that failure; the files after it are not read, nothing is
    processed or asked, and the session is unchanged. *)
Theorem unreadable_file_reported
    (ok_files rest : list DocChat.UploadedFile) (bad : DocChat.UploadedFile)
    (msg : string) :
  truthy (strip question_text) = true ->
  uploaded_files = ok_files ++ bad :: rest ->
  Forall (readable ext) ok_files ->
  DocChat.read_file ext (DocChat.name bad) = DocChat.Err msg ->
  run = ((error_reply msg, "", state),
         log ++ reads_of ok_files ++ [DocChat.FileRead (DocChat.name bad)]).
Proof.
  intros Hq Hf HF Hbad.
  unfold DocChat.process_question, DocChat.process_question_body.
  rewrite Hq, Hf. cbn [negb].
  destruct (ok_files ++ bad :: rest) as [|f fs] eqn:E; [destruct ok_files; discriminate|].
  rewrite <- E. unfold DocChat._get_file_hashes.
  unfold mbind, DocChat.App_bind. unfold DocChat.and_then at 1.
  rewrite (hash_files_unreadable ok_files ∅ _ bad rest msg HF Hbad).
  reflexivity.
Qed.

End ProcessQuestion.

End DocChatProperties.

(** ** The properties of the handlers at concrete collaborators *)

Lemma build_none_iff_no_docs_witness :
  DocChat.build_hybrid_retriever demo_externals demo_settings demo_builder []
    {| DocChat.session := demo_session; DocChat.events := [] |} =
  (DocChat.Ok None, {| DocChat.session := demo_session; DocChat.events := [] |}).
Proof.
  destruct (build_none_iff_no_docs demo_externals demo_settings demo_builder []
              {| DocChat.session := demo_session; DocChat.events := [] |}) as [H _].
  apply H. reflexivity.
Defined.

Lemma build_hybrid_shape_witness :
  fst (DocChat.build_hybrid_retriever demo_externals demo_settings demo_builder one_doc
         {| DocChat.session := demo_session; DocChat.events := [] |}) =
  DocChat.Ok
    (Some (DocChat.EnsembleRetriever
             [DocChat.BM25Retriever (ext := demo_externals) one_doc;
              DocChat.VectorStoreRetriever (ext := demo_externals) one_doc 10]
             [4 # 10; 6 # 10])).
Proof.
  destruct (build_hybrid_shape demo_externals demo_settings demo_builder one_doc
              {| DocChat.session := demo_session; DocChat.events := [] |})
    as (_ & _ & H).
  - discriminate.
  - apply (H one_doc one_doc); reflexivity.
Defined.

Lemma load_example_paths_witness :
  DocChat.load_example demo_externals (Some "No such example") = ([], "").
Proof.
  destruct (load_example_paths demo_externals (Some "No such example")) as (_ & _ & H).
  apply H. right. right. exists "No such example". split; reflexivity.
Defined.

Example load_example_demo :
  DocChat.load_example demo_externals (Some "DeepSeek-R1 Technical Report") =
  (["/root/examples/DeepSeek Technical Report.pdf"],
   "Summarize DeepSeek-R1 model's performance evaluation on all coding tasks against OpenAI o1-mini model")
  /\ fst (DocChat.load_example demo_externals (Some "Google 2024 Environmental Report")) = [].
Proof. split; vm_compute; reflexivity. Qed.

Lemma file_hashes_order_free_witness :
  fst (DocChat._get_file_hashes demo_externals
         [ {| DocChat.name := "a.pdf" |}; {| DocChat.name := "b.pdf" |} ]
         {| DocChat.session := demo_session; DocChat.events := [] |}) =
  fst (DocChat._get_file_hashes demo_externals
         [ {| DocChat.name := "b.pdf" |}; {| DocChat.name := "a.pdf" |};
           {| DocChat.name := "b.pdf" |} ]
         {| DocChat.session := demo_session; DocChat.events := [] |}).
Proof.
  apply file_hashes_order_free.
  - repeat constructor; eexists; reflexivity.
  - intros f. rewrite !elem_of_cons, !elem_of_nil. tauto.
Defined.

Lemma invalid_request_rejected_witness :
  DocChat.process_question demo_externals demo_settings demo_builder demo_workflow
    "   " [ {| DocChat.name := "a.pdf" |} ] demo_session [] =
  ((error_reply (DocChat.cross_mark +:+ " Question cannot be empty"), "", demo_session), []).
Proof.
  destruct (invalid_request_rejected demo_externals demo_settings demo_builder
              demo_workflow "   " [ {| DocChat.name := "a.pdf" |} ] demo_session [])
    as [H _].
  apply H. reflexivity.
Defined.

Lemma stale_session_rebuilt_witness :
  DocChat.process_question demo_externals demo_settings demo_builder demo_workflow
    "What is X?" [ {| DocChat.name := "a.pdf" |} ] demo_session [] =
  (("X is 42.", "**Supported:** YES",
    {| DocChat.file_hashes := {[ "a.pdf" ]} ∪ ∅; DocChat.retriever := Some demo_retriever |}),
   [DocChat.FileRead "a.pdf";
    DocChat.Processed [ {| DocChat.name := "a.pdf" |} ];
    DocChat.ChromaBuilt [ {| page_content := "a.pdf" |} ];
    DocChat.BM25Built [ {| page_content := "a.pdf" |} ];
    DocChat.PipelineRun "What is X?" (Some demo_retriever)]).
Proof.
  apply (stale_session_rebuilt demo_externals demo_settings demo_builder demo_workflow
           "What is X?" [ {| DocChat.name := "a.pdf" |} ] demo_session []
           [ {| page_content := "a.pdf" |} ]
           [ {| page_content := "a.pdf" |} ] [ {| page_content := "a.pdf" |} ]).
  - reflexivity.
  - discriminate.
  - repeat constructor. eexists. reflexivity.
  - left. reflexivity.
  - reflexivity.
  - discriminate.
  - reflexivity.
  - reflexivity.
Defined.

Lemma cached_retriever_reused_witness :
  DocChat.process_question demo_externals demo_settings demo_builder demo_workflow
    "What is X?" [ {| DocChat.name := "a.pdf" |} ]
    {| DocChat.file_hashes := {[ "a.pdf" ]} ∪ ∅; DocChat.retriever := Some demo_retriever |}
    [] =
  (("X is 42.", "**Supported:** YES",
    {| DocChat.file_hashes := {[ "a.pdf" ]} ∪ ∅; DocChat.retriever := Some demo_retriever |}),
   [DocChat.FileRead "a.pdf"; DocChat.PipelineRun "What is X?" (Some demo_retriever)]).
Proof.
  apply (cached_retriever_reused demo_externals demo_settings demo_builder demo_workflow
           "What is X?" [ {| DocChat.name := "a.pdf" |} ]
           {| DocChat.file_hashes := {[ "a.pdf" ]} ∪ ∅;
              DocChat.retriever := Some demo_retriever |} [] demo_retriever).
  - reflexivity.
  - discriminate.
  - repeat constructor. eexists. reflexivity.
  - reflexivity.
  - reflexivity.
Defined.

Lemma failed_rebuild_keeps_session_witness :
  DocChat.process_question blank_externals demo_settings demo_builder
    (fun _ _ => DocChat.Err "unused")
    "What is X?" [ {| DocChat.name := "scan.pdf" |} ]
    {| DocChat.file_hashes := ∅; DocChat.retriever := None |} [] =
  ((error_reply "No readable text found.", "",
    {| DocChat.file_hashes := ∅; DocChat.retriever := None |}),
   [DocChat.FileRead "scan.pdf"; DocChat.Processed [ {| DocChat.name := "scan.pdf" |} ]]).
Proof.
  destruct (failed_rebuild_keeps_session blank_externals demo_settings demo_builder
              (fun _ _ => DocChat.Err "unused")
              "What is X?" [ {| DocChat.name := "scan.pdf" |} ]
              {| DocChat.file_hashes := ∅; DocChat.retriever := None |} [])
    as [H _].
  - reflexivity.
  - discriminate.
  - repeat constructor. eexists. reflexivity.
  - left. reflexivity.
  - apply H. reflexivity.
Defined.

Lemma unreadable_file_reported_witness :
  DocChat.process_question demo_externals demo_settings demo_builder demo_workflow
    "What is X?"
    [ {| DocChat.name := "a.pdf" |}; {| DocChat.name := "missing.pdf" |};
      {| DocChat.name := "b.pdf" |} ] demo_session [] =
  ((error_reply "[Errno 2] No such file or directory: 'missing.pdf'", "", demo_session),
   [DocChat.FileRead "a.pdf"; DocChat.FileRead "missing.pdf"]).
Proof.
  apply (unreadable_file_reported demo_externals demo_settings demo_builder demo_workflow
           "What is X?"
           [ {| DocChat.name := "a.pdf" |}; {| DocChat.name := "missing.pdf" |};
             {| DocChat.name := "b.pdf" |} ] demo_session []
           [ {| DocChat.name := "a.pdf" |} ] [ {| DocChat.name := "b.pdf" |} ]
           {| DocChat.name := "missing.pdf" |}).
  - reflexivity.
  - reflexivity.
  - repeat constructor. eexists. reflexivity.
  - reflexivity.
Defined.

Lemma pipeline_gets_a_retriever_witness :
  DocChat.PipelineRun "What is X?" None
  ∉ snd (DocChat.process_question demo_externals demo_settings demo_builder demo_workflow
           "What is X?" [ {| DocChat.name := "a.pdf" |} ] demo_session []).
Proof.
  intros H.
  destruct (pipeline_gets_a_retriever demo_externals demo_settings demo_builder
              demo_workflow "What is X?" [ {| DocChat.name := "a.pdf" |} ] demo_session [])
    as [Hp _].
  destruct (Hp _ _ H) as [Hin | [_ Hn]].
  - apply elem_of_nil in Hin. destruct Hin.
  - apply Hn. reflexivity.
Defined.
